(** * Chromes: profile registry and instance supervisor

    A shallow embedding of [001-chromes/config/config.go] (package
    [config]: the profile registry) and of package [chrome] (the
    [Instance] supervisor and its process matcher), with the properties
    of the design specification stated over it.

    Go strings are byte strings; they are modelled by [string] (a list of
    8-bit characters).  Calls into the operating system are requests
    answered by a handler over an abstract world, and every request is
    appended to a log, so that a statement can speak about which calls a
    function makes and in which order. *)

From Stdlib Require Import String Ascii List ZArith Lia Bool DecimalString.
Import ListNotations.
Local Open Scope list_scope.
Local Open Scope string_scope.

Set Implicit Arguments.

(** ** The [strings] and [strconv] functions the program calls *)

Module GoStrings.

Definition byte (n : nat) : ascii := ascii_of_nat n.

Fixpoint bytes (l : list nat) : string :=
  match l with
  | [] => EmptyString
  | n :: r => String (byte n) (bytes r)
  end.

Fixpoint rev_onto (s acc : string) : string :=
  match s with
  | EmptyString => acc
  | String c r => rev_onto r (String c acc)
  end.

Definition rev (s : string) : string := rev_onto s EmptyString.

(** [unicode.IsSpace] on a rune below U+0080: tab, line feed, vertical
    tab, form feed, carriage return and space. *)
Definition space1 (c : ascii) : bool :=
  let n := nat_of_ascii c in
  (((9 <=? n) && (n <=? 13)) || (n =? 32))%nat.

(** U+0085 and U+00A0, as the two bytes of their UTF-8 encoding. *)
Definition space2 (c1 c2 : ascii) : bool :=
  ((nat_of_ascii c1 =? 194)
   && ((nat_of_ascii c2 =? 133) || (nat_of_ascii c2 =? 160)))%nat.

(** The remaining White_Space runes, all three bytes long in UTF-8:
    U+1680, U+2000..U+200A, U+2028, U+2029, U+202F, U+205F, U+3000. *)
Definition space3 (c1 c2 c3 : ascii) : bool :=
  let a := nat_of_ascii c1 in
  let b := nat_of_ascii c2 in
  let c := nat_of_ascii c3 in
  (((a =? 225) && (b =? 154) && (c =? 128))
   || ((a =? 226) && (b =? 128)
       && (((128 <=? c) && (c <=? 138)) || (c =? 168) || (c =? 169) || (c =? 175)))
   || ((a =? 226) && (b =? 129) && (c =? 159))
   || ((a =? 227) && (b =? 128) && (c =? 128)))%nat.

(** [strings.TrimLeftFunc(s, unicode.IsSpace)]. *)
Fixpoint trimLeft (s : string) : string :=
  match s with
  | EmptyString => EmptyString
  | String c1 r1 =>
      if space1 c1 then trimLeft r1
      else match r1 with
           | EmptyString => s
           | String c2 r2 =>
               if space2 c1 c2 then trimLeft r2
               else match r2 with
                    | EmptyString => s
                    | String c3 r3 =>
                        if space3 c1 c2 c3 then trimLeft r3 else s
                    end
           end
  end.

(** The same scan on the reversed string, where the bytes of one rune
    come last byte first. *)
Fixpoint trimLeftRev (s : string) : string :=
  match s with
  | EmptyString => EmptyString
  | String c1 r1 =>
      if space1 c1 then trimLeftRev r1
      else match r1 with
           | EmptyString => s
           | String c2 r2 =>
               if space2 c2 c1 then trimLeftRev r2
               else match r2 with
                    | EmptyString => s
                    | String c3 r3 =>
                        if space3 c3 c2 c1 then trimLeftRev r3 else s
                    end
           end
  end.

(** [strings.TrimSpace]. *)
Definition TrimSpace (s : string) : string :=
  rev (trimLeftRev (rev (trimLeft s))).

(** [strings.Split(s, sep)] for a separator of one byte, the only kind
    the program uses ("," and "\n"). *)
Fixpoint Split (s : string) (sep : ascii) : list string :=
  match s with
  | EmptyString => [EmptyString]
  | String c r =>
      if Ascii.eqb c sep then EmptyString :: Split r sep
      else match Split r sep with
           | h :: t => String c h :: t
           | [] => [String c EmptyString]
           end
  end.

(** [strings.ReplaceAll(s, old, new)] for [old] of one byte. *)
Fixpoint ReplaceAll (s : string) (old : ascii) (new : string) : string :=
  match s with
  | EmptyString => EmptyString
  | String c r =>
      if Ascii.eqb c old then new ++ ReplaceAll r old new
      else String c (ReplaceAll r old new)
  end.

Definition HasPrefix (s p : string) : bool := String.prefix p s.

(** [strings.Contains]. *)
Fixpoint Contains (s sub : string) : bool :=
  String.prefix sub s
  || match s with
     | EmptyString => false
     | String _ r => Contains r sub
     end.

Definition digit (c : ascii) : option Z :=
  let n := nat_of_ascii c in
  if ((48 <=? n) && (n <=? 57))%nat then Some (Z.of_nat (n - 48)) else None.

Fixpoint digits (s : string) (acc : Z) : option Z :=
  match s with
  | EmptyString => Some acc
  | String c r =>
      match digit c with
      | Some d => digits r (10 * acc + d)
      | None => None
      end
  end.

Definition maxInt : Z := 9223372036854775807.
Definition minInt : Z := -9223372036854775808.

Definition inInt (z : Z) : bool := (minInt <=? z)%Z && (z <=? maxInt)%Z.

(** [strconv.Atoi]: an optional sign, then one or more decimal digits;
    [None] stands for the [*NumError] (syntax or range) of Go. *)
Definition Atoi (s : string) : option Z :=
  let unsigned (t : string) :=
    match t with
    | EmptyString => None
    | _ => digits t 0
    end in
  let r :=
    match s with
    | String "-" t => option_map Z.opp (unsigned t)
    | String "+" t => unsigned t
    | _ => unsigned s
    end in
  match r with
  | Some z => if inInt z then Some z else None
  | None => None
  end.

(** [strconv.Itoa]. *)
Definition Itoa (z : Z) : string := NilZero.string_of_int (Z.to_int z).

End GoStrings.

Import GoStrings.

(** ** Errors

    Go's [error] values.  The first group is produced by the operating
    system and the Go runtime; the program inspects some of them
    ([syscall.ESRCH], the exit code of an [*exec.ExitError], the text of
    the message).  Every other constructor stands for one [fmt.Errorf]
    site of the program and carries what that site formats. *)

Inductive error : Type :=
  (* operating system and runtime *)
  | ESRCH
  | ErrProcessDone
  | ErrNotExist
  | ExitError (code : Z)
  | SysError (msg : string)
  (* config.SaveConfigs *)
  | SaveReservedName
  | SaveEmptyDir (name : string)
  | SaveDefaultPath (name dir : string)
  (* config.AddConfig *)
  | AddReservedName
  | AddEmptyDir
  | AddDefaultDir (dir : string)
  | AddNameExists (name : string)
  | AddDirExists (dir abs name : string)
  | AddSaveFailed (e : error)
  (* config.RemoveConfig *)
  | RemoveDefault
  | RemoveNotFound (name : string)
  | RemoveSaveFailed (e : error)
  (* chrome.Instance.Start *)
  | StartAlreadyRunning (name : string)
  | StartAbsFailed (dir : string) (e : error)
  | StartFailed (name dir : string) (e : error)
  (* chrome.Instance.Stop *)
  | StopNotRunning (name : string)
  | StopSignalAndFallbackFailed (name : string) (e fallback : error)
  | StopSignalAndNotFound (name : string) (e : error)
  | StopByDirFailed (name dir : string) (e : error)
  | StopNotFound (name dir : string)
  (* chrome.chromeStop *)
  | KillUnsupportedDefault
  | KillFindDefaultFailed (e : error)
  | KillUnsupported (goos : string)
  | KillFindFailed (dir : string) (e : error)
  | KillInvalidPid (pid : string)
  | KillFindProcessFailed (pid : Z) (e : error)
  | KillFailed (pid : Z) (e : error).

(** [err.Error()] for the errors of the operating system; the program
    only ever reads the text of an error [os.FindProcess] returned. *)
Definition ErrorText (e : error) : string :=
  match e with
  | ESRCH => "no such process"
  | ErrProcessDone => "os: process already finished"
  | ErrNotExist => "file does not exist"
  | ExitError code => "exit status " ++ Itoa code
  | SysError msg => msg
  | _ => ""
  end.

(** The taxonomy of the design specification, and the class of each
    error the program produces. *)
Inductive ErrorKind : Type :=
  | ValidationError
  | ProtectedEntityError
  | NotFoundError
  | IOError
  | LaunchError
  | AlreadyRunningError
  | NotRunningError
  | StopError.

Fixpoint kindOf (e : error) : ErrorKind :=
  match e with
  | ESRCH | ErrProcessDone | ErrNotExist | ExitError _ | SysError _ => IOError
  | SaveReservedName | SaveEmptyDir _ | SaveDefaultPath _ _ => ValidationError
  | AddReservedName | AddEmptyDir | AddDefaultDir _
  | AddNameExists _ | AddDirExists _ _ _ => ValidationError
  | AddSaveFailed e' => kindOf e'
  | RemoveDefault => ProtectedEntityError
  | RemoveNotFound _ => NotFoundError
  | RemoveSaveFailed e' => kindOf e'
  | StartAlreadyRunning _ => AlreadyRunningError
  | StartAbsFailed _ _ | StartFailed _ _ _ => LaunchError
  | StopNotRunning _ => NotRunningError
  | StopSignalAndFallbackFailed _ _ _ | StopSignalAndNotFound _ _
  | StopByDirFailed _ _ _ | StopNotFound _ _ => StopError
  | KillUnsupportedDefault | KillFindDefaultFailed _ | KillUnsupported _
  | KillFindFailed _ _ | KillInvalidPid _ | KillFindProcessFailed _ _
  | KillFailed _ _ => StopError
  end.

(** A Go result pair [(value, err)] of which exactly one side is used. *)
Inductive result (A : Type) : Type :=
  | Ok (a : A)
  | Err (e : error).
Arguments Ok {A} a.
Arguments Err {A} e.

(** ** The runtime outside the repository

    What [runtime], [os], [path/filepath], [strings.EqualFold] and
    [encoding/json] answer.  These depend on the platform the program is
    built for and on its environment; they are read-only for the
    program, so they are collected in one descriptor. *)

Record Runtime : Type := {
  GOOS : string;
  Getenv : string -> string;
  UserHomeDir : result string;
  Abs : string -> result string;
  IsAbs : string -> bool;
  Join : list string -> string;
  Dir : string -> string;
  EqualFold : string -> string -> bool;
  (* encoding/json on an array of objects with the two keys [name] and
     [user_data_dir], each object given as the pair of their values; a
     document with a null element, which LoadConfigs would dereference,
     has no counterpart here *)
  MarshalIndent : list (string * string) -> result string;
  Unmarshal : string -> result (list (string * string))
}.

(** ** Requests to the operating system *)

Record Process : Type := { Pid : Z }.

Inductive Signal : Type := SIGTERM.

(** [os.ProcessState]: what [Exited()] answers. *)
Record ProcessState : Type := { Exited : bool }.

Inductive Call : Type -> Type :=
  | ReadFile (path : string) : Call (result string)
  | MkdirAll (path : string) (perm : Z) : Call (option error)
  | WriteFile (path data : string) (perm : Z) : Call (option error)
  (* exec.Command(name, args...) followed by Start, Output, Run *)
  | CmdStart (name : string) (args : list string) : Call (result Process)
  | CmdOutput (name : string) (args : list string) : Call (string * option error)
  | CmdRun (name : string) (args : list string) : Call (option error)
  (* the blocking part of Wait on an exec.Cmd *)
  | ProcessWait (p : Process) : Call (ProcessState * option error)
  | FindProcess (pid : Z) : Call (result Process)
  | ProcessSignal (p : Process) (sig : Signal) : Call (option error).

(** The fields of an [Instance] that its mutex guards. *)
Inductive Field : Type := FCmd | FIsRunning.

(** What a run leaves in the log. *)
Inductive Event : Type :=
  | EvOS {X : Type} (c : Call X)
  | EvLock
  | EvUnlock
  | EvRead (f : Field)
  | EvWrite (f : Field).

Definition isOS (e : Event) : bool :=
  match e with
  | EvOS _ => true
  | _ => false
  end.

(** The operating-system calls of a log, in order. *)
Definition osCalls (l : list Event) : list Event := filter isOS l.

(** ** The monad of the embedding: state passing, with a log *)

Definition M (S A : Type) : Type := S -> A * S.

Definition ret {S A : Type} (a : A) : M S A := fun s => (a, s).

Definition bind {S A B : Type} (m : M S A) (k : A -> M S B) : M S B :=
  fun s => let (a, s') := m s in k a s'.

Declare Scope m_scope.
Delimit Scope m_scope with m.
Notation "x <- m ;; k" := (bind m (fun x => k))
  (at level 61, m at next level, right associativity) : m_scope.
Notation "' pat <- m ;; k" := (bind m (fun x => match x with pat => k end))
  (at level 61, pat pattern, m at next level, right associativity) : m_scope.
Notation "m ;; k" := (bind m (fun _ => k))
  (at level 61, right associativity) : m_scope.

(** The part of the state every function of the program runs over: the
    world behind the operating-system calls, and the log. *)
Record Sys (W : Type) : Type := mkSys {
  world : W;
  log : list Event
}.

Definition Handler (W : Type) : Type := forall X : Type, Call X -> W -> X * W.

(** One call: the handler answers, the request is logged. *)
Definition call {W X : Type} (os : Handler W) (c : Call X) : M (Sys W) X :=
  fun s =>
    let (x, w') := os X c (world s) in
    (x, mkSys w' (log s ++ [EvOS c])%list).

(** ** Package [config]: the profile registry *)

Module Config.

(** [ChromeConfig]; [IsDefault] carries the tag [json:"-"] and is not
    serialised. *)
Record ChromeConfig : Type := {
  Name : string;
  UserDataDir : string;
  IsDefault : bool
}.

Definition DefaultChromeConfigName : string := "[默认配置]".

(** The two fields [encoding/json] sees, and the struct it builds from
    them ([IsDefault] gets its zero value). *)
Definition toJSON (cfg : ChromeConfig) : string * string :=
  (Name cfg, UserDataDir cfg).

Definition ofJSON (o : string * string) : ChromeConfig :=
  {| Name := fst o; UserDataDir := snd o; IsDefault := false |}.

Section WithRuntime.

Variable rt : Runtime.

Definition GetDefaultUserDataDir : string :=
  if GOOS rt =? "windows" then
    Join rt [Getenv rt "LOCALAPPDATA"; "Google"; "Chrome"; "User Data"]
  else if GOOS rt =? "darwin" then
    match UserHomeDir rt with
    | Err _ => ""
    | Ok homeDir =>
        Join rt [homeDir; "Library"; "Application Support"; "Google"; "Chrome"]
    end
  else if GOOS rt =? "linux" then
    match UserHomeDir rt with
    | Err _ => ""
    | Ok homeDir => Join rt [homeDir; ".config"; "google-chrome"]
    end
  else "".

Definition getDefaultConfigFile : string :=
  let fallback := Join rt ["."; "chromes"; "configs.json"] in
  if GOOS rt =? "windows" then
    let appData := Getenv rt "APPDATA" in
    if appData =? "" then
      match UserHomeDir rt with
      | Err _ => fallback
      | Ok homeDir =>
          Join rt [Join rt [homeDir; "AppData"; "Roaming"; "chromes"];
                   "configs.json"]
      end
    else Join rt [Join rt [appData; "chromes"]; "configs.json"]
  else if (GOOS rt =? "darwin") || (GOOS rt =? "linux") then
    match UserHomeDir rt with
    | Err _ => fallback
    | Ok homeDir =>
        Join rt [Join rt [homeDir; ".config"; "chromes"]; "configs.json"]
    end
  else
    match UserHomeDir rt with
    | Err _ => fallback
    | Ok homeDir => Join rt [Join rt [homeDir; ".chromes"]; "configs.json"]
    end.

Definition configFile : string := getDefaultConfigFile.

(** The test [LoadConfigs], [SaveConfigs] and [AddConfig] all make on
    a directory:
    [actualDefaultDir != "" && errCfg == nil && errDef == nil
     && strings.EqualFold(absCfgPath, absDefaultPath)]. *)
Definition usesDefaultDir (dir : string) : bool :=
  let actualDefaultDir := GetDefaultUserDataDir in
  negb (actualDefaultDir =? "")
  && match Abs rt dir, Abs rt actualDefaultDir with
     | Ok absCfgPath, Ok absDefaultPath => EqualFold rt absCfgPath absDefaultPath
     | _, _ => false
     end.

Definition defaultInstance : ChromeConfig :=
  {| Name := DefaultChromeConfigName; UserDataDir := ""; IsDefault := true |}.

(** The loop of [LoadConfigs] over the entries read from the file;
    the warnings it logs are left out. *)
Fixpoint validUserConfigs (userConfigs : list ChromeConfig) : list ChromeConfig :=
  match userConfigs with
  | [] => []
  | cfg :: rest =>
      if Name cfg =? DefaultChromeConfigName then validUserConfigs rest
      else if usesDefaultDir (UserDataDir cfg) then validUserConfigs rest
      else if UserDataDir cfg =? "" then validUserConfigs rest
      else {| Name := Name cfg; UserDataDir := UserDataDir cfg; IsDefault := false |}
           :: validUserConfigs rest
  end.

(** The loop of [SaveConfigs]: the entries to write, or the error of
    the first entry that is refused. *)
Fixpoint userConfigsToSave (cfgs : list ChromeConfig) : result (list ChromeConfig) :=
  match cfgs with
  | [] => Ok []
  | cfg :: rest =>
      if IsDefault cfg then userConfigsToSave rest
      else if Name cfg =? DefaultChromeConfigName then Err SaveReservedName
      else if UserDataDir cfg =? "" then Err (SaveEmptyDir (Name cfg))
      else if usesDefaultDir (UserDataDir cfg)
           then Err (SaveDefaultPath (Name cfg) (UserDataDir cfg))
      else match userConfigsToSave rest with
           | Ok userConfigs => Ok (cfg :: userConfigs)
           | Err e => Err e
           end
  end.

(** The loop of [AddConfig] over the current entries: the error of
    the first collision, if any. *)
Fixpoint collision (name userDataDir : string) (absNew : result string)
         (currentConfigs : list ChromeConfig) : option error :=
  match currentConfigs with
  | [] => None
  | cfg :: rest =>
      if IsDefault cfg then collision name userDataDir absNew rest
      else if Name cfg =? name then Some (AddNameExists name)
      else match Abs rt (UserDataDir cfg), absNew with
           | Ok absExistingPath, Ok absNewPath =>
               if EqualFold rt absExistingPath absNewPath
               then Some (AddDirExists userDataDir absNewPath (Name cfg))
               else collision name userDataDir absNew rest
           | _, _ => collision name userDataDir absNew rest
           end
  end.

(** The loop of [RemoveConfig]: [found] and [updatedConfigs]. *)
Fixpoint scanForRemoval (name : string) (currentConfigs : list ChromeConfig)
  : bool * list ChromeConfig :=
  match currentConfigs with
  | [] => (false, [])
  | cfg :: rest =>
      let (found, updatedConfigs) := scanForRemoval name rest in
      if Name cfg =? name then (true, updatedConfigs)
      else (found, cfg :: updatedConfigs)
  end.

Section WithOS.

Variable W : Type.
Variable os : Handler W.

Local Open Scope m_scope.

Definition LoadConfigs : M (Sys W) (list ChromeConfig) :=
  r <- call os (ReadFile configFile) ;;
  match r with
  | Err _ => ret [defaultInstance]
  | Ok data =>
      match Unmarshal rt data with
      | Err _ => ret [defaultInstance]
      | Ok userConfigs =>
          ret (defaultInstance :: validUserConfigs (map ofJSON userConfigs))
      end
  end.

Definition SaveConfigs (cfgs : list ChromeConfig) : M (Sys W) (option error) :=
  match userConfigsToSave cfgs with
  | Err e => ret (Some e)
  | Ok userConfigs =>
      match MarshalIndent rt (map toJSON userConfigs) with
      | Err e => ret (Some e)
      | Ok data =>
          e <- call os (MkdirAll (Dir rt configFile) 488) ;;
          match e with
          | Some err => ret (Some err)
          | None => call os (WriteFile configFile data 416)
          end
      end
  end.

Definition AddConfig (name userDataDir : string)
           (currentConfigs : list ChromeConfig)
  : M (Sys W) (list ChromeConfig * option error) :=
  if name =? DefaultChromeConfigName then
    ret (currentConfigs, Some AddReservedName)
  else if TrimSpace userDataDir =? "" then
    ret (currentConfigs, Some AddEmptyDir)
  else if usesDefaultDir userDataDir then
    ret (currentConfigs, Some (AddDefaultDir userDataDir))
  else
    match collision name userDataDir (Abs rt userDataDir) currentConfigs with
    | Some e => ret (currentConfigs, Some e)
    | None =>
        let newConfig :=
          {| Name := name; UserDataDir := userDataDir; IsDefault := false |} in
        let updatedConfigs := (currentConfigs ++ [newConfig])%list in
        e <- SaveConfigs updatedConfigs ;;
        match e with
        | Some err => ret (currentConfigs, Some (AddSaveFailed err))
        | None => ret (updatedConfigs, None)
        end
    end.

Definition RemoveConfig (name : string) (currentConfigs : list ChromeConfig)
  : M (Sys W) (list ChromeConfig * option error) :=
  if name =? DefaultChromeConfigName then
    ret (currentConfigs, Some RemoveDefault)
  else
    let (found, updatedConfigs) := scanForRemoval name currentConfigs in
    if negb found then
      ret (currentConfigs, Some (RemoveNotFound name))
    else
      e <- SaveConfigs updatedConfigs ;;
      match e with
      | Some err => ret (currentConfigs, Some (RemoveSaveFailed err))
      | None => ret (updatedConfigs, None)
      end.

End WithOS.

End WithRuntime.

End Config.

(** ** Package [chrome]: instances and the process matcher *)

Module Chrome.

Import Config.

(** An [*exec.Cmd] after [exec.Command]: [Process] is set by a
    successful [Start], [ProcessState] by [Wait]. *)
Record Cmd : Type := {
  Path : string;
  Args : list string;
  CmdProcess : option Process;
  CmdProcessState : option ProcessState
}.

(** [Instance]; the mutex [mu] shows in the log as [EvLock] and
    [EvUnlock]. *)
Record Instance : Type := {
  config : ChromeConfig;
  cmd : option Cmd;
  isRunning : bool
}.

(** The state a method of an [Instance] runs over. *)
Record ISt (W : Type) : Type := mkISt {
  sys : Sys W;
  self : Instance
}.

Definition dq : string := String (ascii_of_nat 34) "".
Definition newline : ascii := ascii_of_nat 10.

Definition macChrome : string :=
  "/Applications/Google Chrome.app/Contents/MacOS/Google Chrome".

Definition isESRCH (e : error) : bool :=
  match e with
  | ESRCH => true
  | _ => false
  end.

Definition isExit (code : Z) (e : error) : bool :=
  match e with
  | ExitError c => (c =? code)%Z
  | _ => false
  end.

Section WithRuntime.

Variable rt : Runtime.

Definition commonArgs : list string :=
  ["--no-first-run"; "--no-default-browser-check"].

(** The [switch runtime.GOOS] of [Start]: the executable and its
    arguments, or the error [Start] returns from inside the switch. *)
Definition launchCommand (userDataDir : string)
  : result (string * list string) :=
  if GOOS rt =? "darwin" then
    if negb (userDataDir =? "") then
      match Abs rt userDataDir with
      | Err e => Err (StartAbsFailed userDataDir e)
      | Ok absPath =>
          Ok (macChrome, ("--user-data-dir=" ++ absPath) :: commonArgs)
      end
    else Ok (macChrome, commonArgs)
  else if GOOS rt =? "windows" then
    let chromePath := "C:\Program Files\Google\Chrome\Application\chrome.exe" in
    if negb (userDataDir =? "") then
      Ok (chromePath,
          ("--user-data-dir=" ++ ReplaceAll userDataDir "/" "\") :: commonArgs)
    else Ok (chromePath, commonArgs)
  else if GOOS rt =? "linux" then
    if negb (userDataDir =? "") then
      Ok ("google-chrome", ("--user-data-dir=" ++ userDataDir) :: commonArgs)
    else Ok ("google-chrome", commonArgs)
  else
    if negb (userDataDir =? "") then
      Ok ("chrome", ("--user-data-dir=" ++ userDataDir) :: commonArgs)
    else Ok ("chrome", commonArgs).

(** The directory as the process matcher looks for it. *)
Definition matchDir (userDataDir : string) : string :=
  if (GOOS rt =? "darwin") || (GOOS rt =? "linux") then
    match Abs rt userDataDir with
    | Ok absUserDataDir => absUserDataDir
    | Err _ => userDataDir
    end
  else if GOOS rt =? "windows" then
    let absUserDataDir :=
      match Abs rt userDataDir with
      | Ok a => a
      | Err _ => userDataDir
      end in
    ReplaceAll absUserDataDir "/" "\\"
  else userDataDir.

(** The discovery command of [isChromeDirInUse]; [None] where the
    function returns [false] without running one. *)
Definition inUseCommand (userDataDir : string) : option (string * list string) :=
  if userDataDir =? "" then
    if GOOS rt =? "darwin" then
      Some ("sh", ["-c";
        "ps -eo command | grep " ++ dq ++ macChrome ++ dq
        ++ " | grep -v grep | grep -v -- '--user-data-dir='"])
    else if GOOS rt =? "windows" then
      Some ("powershell", ["-Command";
        "Get-CimInstance Win32_Process -Filter " ++ dq ++ "Name='chrome.exe'" ++ dq
        ++ " | Where-Object {$_.CommandLine -notlike '*--user-data-dir=*'}"
        ++ " | Select-Object -ExpandProperty ProcessId"])
    else if GOOS rt =? "linux" then
      Some ("sh", ["-c";
        "ps -eo command | grep -E '(^|/)google-chrome( |$)'"
        ++ " | grep -v grep | grep -v -- '--user-data-dir='"])
    else None
  else
    let absUserDataDir := matchDir userDataDir in
    if GOOS rt =? "darwin" then
      Some ("pgrep", ["-f"; macChrome ++ ".*--user-data-dir=" ++ absUserDataDir])
    else if GOOS rt =? "windows" then
      Some ("powershell", ["-Command";
        "Get-CimInstance Win32_Process -Filter " ++ dq
        ++ "Name='chrome.exe' AND CommandLine LIKE '%%--user-data-dir="
        ++ absUserDataDir ++ "%%'" ++ dq
        ++ " | Select-Object -ExpandProperty ProcessId"])
    else
      Some ("pgrep", ["-f"; "chrome.*--user-data-dir=" ++ absUserDataDir]).

(** The discovery command of [chromeStop], or the error it returns
    on a platform it does not support. *)
Definition findCommand (userDataDir : string) : result (string * list string) :=
  if userDataDir =? "" then
    if GOOS rt =? "darwin" then
      Ok ("sh", ["-c";
        "ps -eo pid,command | grep " ++ dq ++ macChrome ++ dq
        ++ " | grep -v grep | grep -v -- '--user-data-dir=' | awk '{print $1}'"])
    else if GOOS rt =? "windows" then
      Ok ("powershell", ["-Command";
        "(Get-CimInstance Win32_Process -Filter " ++ dq ++ "Name='chrome.exe'" ++ dq
        ++ " | Where-Object {$_.CommandLine -notlike '*--user-data-dir=*'}"
        ++ " | Select-Object -ExpandProperty ProcessId) -join ','"])
    else if GOOS rt =? "linux" then
      Ok ("sh", ["-c";
        "ps -eo pid,command | grep -E '(^|/)google-chrome( |$)'"
        ++ " | grep -v grep | grep -v -- '--user-data-dir=' | awk '{print $1}'"])
    else Err KillUnsupportedDefault
  else
    let absUserDataDir := matchDir userDataDir in
    if GOOS rt =? "darwin" then
      Ok ("pgrep", ["-f"; macChrome ++ ".*--user-data-dir=" ++ absUserDataDir])
    else if GOOS rt =? "windows" then
      Ok ("powershell", ["-Command";
        "(Get-CimInstance Win32_Process -Filter " ++ dq
        ++ "Name='chrome.exe' AND CommandLine LIKE '%%--user-data-dir="
        ++ absUserDataDir ++ "%%'" ++ dq
        ++ " | Select-Object -ExpandProperty ProcessId) -join ','"])
    else if GOOS rt =? "linux" then
      Ok ("pgrep", ["-f"; "chrome.*--user-data-dir=" ++ absUserDataDir])
    else Err (KillUnsupported (GOOS rt)).

(** What [chromeStop] makes of a failed discovery command: [true]
    where it reports "no process found" rather than an error. *)
Definition findFailureIsNotFound (userDataDir output : string) (err : error) : bool :=
  if userDataDir =? "" then isExit 1 err && (String.length output =? 0)%nat
  else isExit 1 err.

Definition findError (userDataDir : string) (err : error) : error :=
  if userDataDir =? "" then KillFindDefaultFailed err
  else KillFindFailed userDataDir err.

Section WithOS.

Variable W : Type.
Variable os : Handler W.

Local Open Scope m_scope.

(** *** The process matcher *)

Definition isChromeDirInUse (userDataDir : string) : M (Sys W) bool :=
  match inUseCommand userDataDir with
  | None => ret false
  | Some (name, args) =>
      ' (output, err) <- call os (CmdOutput name args) ;;
      match err with
      | Some _ => ret false
      | None => ret (0 <? String.length (TrimSpace output))%nat
      end
  end.

(** The loop of [chromeStop] over the process ids found. *)
Fixpoint killAll (pidsToKill : list string) (killedAtLeastOne : bool)
         (lastKillError : option error) : M (Sys W) (bool * option error) :=
  match pidsToKill with
  | [] => ret (killedAtLeastOne, lastKillError)
  | pidStr :: rest =>
      let pidStr := TrimSpace pidStr in
      if pidStr =? "" then killAll rest killedAtLeastOne lastKillError
      else
        match Atoi pidStr with
        | None => killAll rest killedAtLeastOne (Some (KillInvalidPid pidStr))
        | Some pid =>
            if GOOS rt =? "windows" then
              killErr <- call os (CmdRun "taskkill" ["/PID"; Itoa pid; "/F"]) ;;
              match killErr with
              | Some e =>
                  if isExit 128 e then killAll rest true lastKillError
                  else killAll rest killedAtLeastOne (Some (KillFailed pid e))
              | None => killAll rest true lastKillError
              end
            else
              r <- call os (FindProcess pid) ;;
              match r with
              | Err e =>
                  if isESRCH e
                     || Contains (ErrorText e) "process already finished"
                  then killAll rest true lastKillError
                  else killAll rest killedAtLeastOne
                               (Some (KillFindProcessFailed pid e))
              | Ok process =>
                  killErr <- call os (ProcessSignal process SIGTERM) ;;
                  match killErr with
                  | Some e =>
                      if isESRCH e then killAll rest true lastKillError
                      else killAll rest killedAtLeastOne (Some (KillFailed pid e))
                  | None => killAll rest true lastKillError
                  end
              end
        end
  end.

Definition chromeStop (userDataDir : string) : M (Sys W) (bool * option error) :=
  match findCommand userDataDir with
  | Err e => ret (false, Some e)
  | Ok (name, args) =>
      ' (output, err) <- call os (CmdOutput name args) ;;
      match err with
      | Some e =>
          if findFailureIsNotFound userDataDir output e then ret (false, None)
          else ret (false, Some (findError userDataDir e))
      | None =>
          let pidsStr := TrimSpace output in
          if pidsStr =? "" then ret (false, None)
          else
            let pidsToKill :=
              if GOOS rt =? "windows" then Split pidsStr ","
              else Split pidsStr newline in
            if (List.length pidsToKill =? 0)%nat
               || ((List.length pidsToKill =? 1)%nat
                   && (TrimSpace (nth 0 pidsToKill "") =? ""))
            then ret (false, None)
            else
              ' (killedAtLeastOne, lastKillError) <- killAll pidsToKill false None ;;
              match killedAtLeastOne, lastKillError with
              | false, Some e => ret (false, Some e)
              | _, _ => ret (killedAtLeastOne, None)
              end
      end
  end.

(** *** Access to the fields of the instance *)

Definition liftSys {A : Type} (m : M (Sys W) A) : M (ISt W) A :=
  fun s => let (a, y) := m (sys s) in (a, mkISt y (self s)).

Definition emit (e : Event) : M (ISt W) unit :=
  fun s => (tt, mkISt (mkSys (world (sys s)) (log (sys s) ++ [e])%list) (self s)).

Definition lock : M (ISt W) unit := emit EvLock.
Definition unlock : M (ISt W) unit := emit EvUnlock.

(** [ci.config] is set once, by [NewInstance], and only read. *)
Definition getConfig : M (ISt W) ChromeConfig :=
  fun s => (config (self s), s).

Definition readIsRunning : M (ISt W) bool :=
  emit (EvRead FIsRunning) ;; fun s => (isRunning (self s), s).

Definition readCmd : M (ISt W) (option Cmd) :=
  emit (EvRead FCmd) ;; fun s => (cmd (self s), s).

Definition writeIsRunning (b : bool) : M (ISt W) unit :=
  emit (EvWrite FIsRunning) ;;
  fun s => (tt, mkISt (sys s)
                  {| config := config (self s); cmd := cmd (self s);
                     isRunning := b |}).

Definition writeCmd (c : option Cmd) : M (ISt W) unit :=
  emit (EvWrite FCmd) ;;
  fun s => (tt, mkISt (sys s)
                  {| config := config (self s); cmd := c;
                     isRunning := isRunning (self s) |}).

(** *** The methods of [Instance] *)

Definition NewInstance (cfg : ChromeConfig) : M (Sys W) Instance :=
  inUse <- isChromeDirInUse (UserDataDir cfg) ;;
  ret {| config := cfg; cmd := None; isRunning := inUse |}.

Definition Start : M (ISt W) (option error) :=
  lock ;;
  r <- (running <- readIsRunning ;;
        cfg <- getConfig ;;
        if running then ret (Some (StartAlreadyRunning (Name cfg)))
        else
          let userDataDir := UserDataDir cfg in
          match launchCommand userDataDir with
          | Err e => ret (Some e)
          | Ok (name, args) =>
              started <- liftSys (call os (CmdStart name args)) ;;
              match started with
              | Err e => ret (Some (StartFailed (Name cfg) userDataDir e))
              | Ok process =>
                  writeCmd (Some {| Path := name; Args := args;
                                    CmdProcess := Some process;
                                    CmdProcessState := None |}) ;;
                  writeIsRunning true ;;
                  ret None
              end
          end) ;;
  unlock ;;
  ret r.

(** [ci.cmd != nil && ci.cmd.Process != nil], with the process. *)
Definition ownedProcess (c : option Cmd) : option Process :=
  match c with
  | Some c' => CmdProcess c'
  | None => None
  end.

Definition Stop : M (ISt W) (option error) :=
  lock ;;
  r <- (running <- readIsRunning ;;
        cfg <- getConfig ;;
        if negb running then ret (Some (StopNotRunning (Name cfg)))
        else
          c <- readCmd ;;
          failed <-
            match ownedProcess c with
            | Some process =>
                err <- liftSys (call os (ProcessSignal process SIGTERM)) ;;
                match err with
                | Some e =>
                    ' (stopped, stopErr) <- liftSys (chromeStop (UserDataDir cfg)) ;;
                    match stopErr with
                    | Some se =>
                        ret (Some (StopSignalAndFallbackFailed (Name cfg) e se))
                    | None =>
                        if negb stopped
                        then ret (Some (StopSignalAndNotFound (Name cfg) e))
                        else ret None
                    end
                | None => ret None
                end
            | None =>
                ' (stopped, err) <- liftSys (chromeStop (UserDataDir cfg)) ;;
                match err with
                | Some e =>
                    ret (Some (StopByDirFailed (Name cfg) (UserDataDir cfg) e))
                | None =>
                    if negb stopped
                    then ret (Some (StopNotFound (Name cfg) (UserDataDir cfg)))
                    else ret None
                end
            end ;;
          match failed with
          | Some e => ret (Some e)
          | None => writeIsRunning false ;; ret None
          end) ;;
  unlock ;;
  ret r.

(** [ci.cmd != nil && ci.cmd.ProcessState != nil
     && ci.cmd.ProcessState.Exited()]. *)
Definition hasExited (c : option Cmd) : bool :=
  match c with
  | Some c' =>
      match CmdProcessState c' with
      | Some st => Exited st
      | None => false
      end
  | None => false
  end.

Definition IsRunning : M (ISt W) bool :=
  lock ;;
  c <- readCmd ;;
  (if hasExited c then writeIsRunning false ;; writeCmd None else ret tt) ;;
  running <- readIsRunning ;;
  unlock ;;
  ret running.

Definition SetRunningState (running : bool) : M (ISt W) unit :=
  lock ;;
  writeIsRunning running ;;
  (if negb running then writeCmd None else ret tt) ;;
  unlock.

(** [currentCmd.Wait()]: an error without any call when the command
    was never started or was waited for before, else the blocking wait.  [Wait] records the
    outcome in the [ProcessState] of the command, which is the very
    object [ci.cmd] points to: the write reaches the instance
    without passing through the field [ci.cmd]. *)
Definition recordProcessState (st : ProcessState) : M (ISt W) unit :=
  fun s =>
    (tt, mkISt (sys s)
           {| config := config (self s);
              cmd := match cmd (self s) with
                     | Some c => Some {| Path := Path c; Args := Args c;
                                         CmdProcess := CmdProcess c;
                                         CmdProcessState := Some st |}
                     | None => None
                     end;
              isRunning := isRunning (self s) |}).

Definition cmdWait (c : Cmd) : M (ISt W) (option error) :=
  match CmdProcess c with
  | None => ret (Some (SysError "exec: not started"))
  | Some process =>
      match CmdProcessState c with
      | Some _ => ret (Some (SysError "exec: Wait was already called"))
      | None =>
          ' (st, err) <- liftSys (call os (ProcessWait process)) ;;
          recordProcessState st ;;
          ret err
      end
  end.

Definition Wait : M (ISt W) (option error) :=
  currentCmd <- (lock ;; c <- readCmd ;; unlock ;; ret c) ;;
  match currentCmd with
  | None =>
      lock ;;
      wasRunning <- readIsRunning ;;
      writeIsRunning false ;;
      writeCmd None ;;
      unlock ;;
      ret None
  | Some c =>
      err <- cmdWait c ;;
      lock ;;
      writeIsRunning false ;;
      writeCmd None ;;
      unlock ;;
      ret err
  end.

End WithOS.

End WithRuntime.

End Chrome.

(** ** Package [main]: what the window does with the two packages

    The closures of [main.go] that call into [config] and [chrome];
    the widgets, dialogs and log lines around the calls are left out. *)

Module Main.

Import Config Chrome.

Section WithRuntime.

Variable rt : Runtime.
Variable W : Type.
Variable os : Handler W.

Local Open Scope m_scope.

(** A method call on one instance, from code that holds the instance
    by pointer. *)
Definition runMethod {A : Type} (m : M (ISt W) A) (instance : Instance)
  : M (Sys W) (A * Instance) :=
  fun s => let (a, st) := m (mkISt s instance) in ((a, self st), sys st).

(** The loop of [reloadInstancesAndRefreshList]: one instance per
    configuration; the log line of each asks [IsRunning]. *)
Fixpoint newInstances (configs : list ChromeConfig) : M (Sys W) (list Instance) :=
  match configs with
  | [] => ret []
  | cfg :: rest =>
      instance <- NewInstance rt os cfg ;;
      ' (_, instance) <- runMethod (@IsRunning W) instance ;;
      others <- newInstances rest ;;
      ret (instance :: others)
  end.

(** [reloadInstancesAndRefreshList]: the new values of the variables
    [configs] and [instances]. *)
Definition reloadInstances : M (Sys W) (list ChromeConfig * list Instance) :=
  configs <- LoadConfigs rt os ;;
  instances <- newInstances configs ;;
  ret (configs, instances).

(** [addForm.OnSubmit]: the error shown, or the variables after the
    reload. *)
Definition onAddSubmit (name workdir : string)
  : M (Sys W) (result (list ChromeConfig * list Instance)) :=
  currentConfigsForAdd <- LoadConfigs rt os ;;
  ' (_, err) <- AddConfig rt os name workdir currentConfigsForAdd ;;
  match err with
  | Some e => ret (Err e)
  | None => reloaded <- reloadInstances ;; ret (Ok reloaded)
  end.

(** The confirmed [removeButton.OnTapped] of the entry named [name]. *)
Definition onRemoveConfirmed (name : string)
  : M (Sys W) (result (list ChromeConfig * list Instance)) :=
  currentConfigsForRemove <- LoadConfigs rt os ;;
  ' (_, err) <- RemoveConfig rt os name currentConfigsForRemove ;;
  match err with
  | Some e => ret (Err e)
  | None => reloaded <- reloadInstances ;; ret (Ok reloaded)
  end.

End WithRuntime.

End Main.

(** ** Lock discipline, read off the log *)

(** Every read and write of a guarded field happens between an [EvLock]
    and the matching [EvUnlock]; the mutex is not taken twice and is free
    at the end. *)
Fixpoint guardedFrom (held : bool) (l : list Event) : bool :=
  match l with
  | [] => negb held
  | EvLock :: r => negb held && guardedFrom true r
  | EvUnlock :: r => held && guardedFrom false r
  | EvRead _ :: r => held && guardedFrom held r
  | EvWrite _ :: r => held && guardedFrom held r
  | EvOS _ :: r => guardedFrom held r
  end.

Definition lockDisciplined (l : list Event) : bool := guardedFrom false l.

Definition isLock (e : Event) : bool :=
  match e with
  | EvLock => true
  | _ => false
  end.

(** How many times the mutex is taken. *)
Definition criticalSections (l : list Event) : nat :=
  List.length (filter isLock l).

Definition isWrite (e : Event) : bool :=
  match e with
  | EvWrite _ => true
  | _ => false
  end.

(** A computation only ever appends to the log, and what it does is the
    same whatever the log held before. *)
Definition appendsToLog {W A : Type} (m : M (Sys W) A) : Prop :=
  forall (w : W) (l : list Event),
    m (mkSys w l)
    = (fst (m (mkSys w [])),
       mkSys (world (snd (m (mkSys w [])))) (l ++ log (snd (m (mkSys w []))))).

(** A computation logs nothing but operating-system calls. *)
Definition logsOnlyCalls {W A : Type} (m : M (Sys W) A) : Prop :=
  forall w : W, Forall (fun e => isOS e = true) (log (snd (m (mkSys w [])))).

Definition wellLogged {W A : Type} (m : M (Sys W) A) : Prop :=
  appendsToLog m /\ logsOnlyCalls m.

(** Running a computation from a state with an empty log. *)
Definition freshSys {W : Type} (w : W) : Sys W := mkSys w [].

Definition freshISt {W : Type} (w : W) (ci : Chrome.Instance) : Chrome.ISt W :=
  Chrome.mkISt (freshSys w) ci.

(** ** A Unix runtime and a simulated world

    One inhabitant of [Runtime] and one [Handler], to run the program
    on: [path/filepath] for slash-separated paths, an ASCII
    [strings.EqualFold], [encoding/json] for the one shape of document
    the program writes, and a world made of a file table and a process
    table. *)

Module Sample.

Import Config Chrome.

(** *** [path/filepath] on Unix *)

Fixpoint cleanElems (rooted : bool) (elems : list string) (stack : list string)
  : list string :=
  match elems with
  | [] => List.rev stack
  | e :: r =>
      if (e =? "") || (e =? ".") then cleanElems rooted r stack
      else if e =? ".." then
        match stack with
        | top :: below =>
            if top =? ".." then cleanElems rooted r (".." :: stack)
            else cleanElems rooted r below
        | [] => if rooted then cleanElems rooted r []
                else cleanElems rooted r [".."]
        end
      else cleanElems rooted r (e :: stack)
  end.

Definition Clean (path : string) : string :=
  let rooted := HasPrefix path "/" in
  let body := String.concat "/" (cleanElems rooted (Split path "/") []) in
  if rooted then "/" ++ body
  else if body =? "" then "." else body.

Definition unixJoin (elems : list string) : string :=
  match filter (fun e => negb (e =? "")) elems with
  | [] => ""
  | nonEmpty => Clean (String.concat "/" nonEmpty)
  end.

Definition unixIsAbs (path : string) : bool := HasPrefix path "/".

Definition unixAbs (wd : result string) (path : string) : result string :=
  if unixIsAbs path then Ok (Clean path)
  else match wd with
       | Ok d => Ok (unixJoin [d; path])
       | Err e => Err e
       end.

Fixpoint dropLastElem (s : string) : string :=
  match s with
  | EmptyString => EmptyString
  | String c r => if Ascii.eqb c "/" then s else dropLastElem r
  end.

Definition unixDir (path : string) : string :=
  Clean (GoStrings.rev (dropLastElem (GoStrings.rev path))).

(** *** [strings.EqualFold] on ASCII letters *)

Definition lower (c : ascii) : ascii :=
  let n := nat_of_ascii c in
  if ((65 <=? n) && (n <=? 90))%nat then ascii_of_nat (n + 32) else c.

Fixpoint asciiEqualFold (s t : string) : bool :=
  match s, t with
  | EmptyString, EmptyString => true
  | String a s', String b t' => Ascii.eqb (lower a) (lower b) && asciiEqualFold s' t'
  | _, _ => false
  end.

(** *** [encoding/json] for an array of name/directory objects *)

Definition hexDigit (n : nat) : ascii :=
  if (n <? 10)%nat then ascii_of_nat (48 + n) else ascii_of_nat (87 + n).

Definition escapeByte (c : ascii) : string :=
  let n := nat_of_ascii c in
  if (n =? 34)%nat then "\" ++ dq
  else if (n =? 92)%nat then "\\"
  else if (n =? 10)%nat then "\n"
  else if (n =? 13)%nat then "\r"
  else if (n =? 9)%nat then "\t"
  else if ((n <? 32) || (n =? 60) || (n =? 62) || (n =? 38))%nat then
    "\u00" ++ String (hexDigit (n / 16)) (String (hexDigit (n mod 16)) "")
  else String c "".

Fixpoint escape (s : string) : string :=
  match s with
  | EmptyString => EmptyString
  | String c r => escapeByte c ++ escape r
  end.

Definition quote (s : string) : string := dq ++ escape s ++ dq.

Definition nl : string := String newline "".

Definition encodeObject (o : string * string) : string :=
  "  {" ++ nl
  ++ "    " ++ quote "name" ++ ": " ++ quote (fst o) ++ "," ++ nl
  ++ "    " ++ quote "user_data_dir" ++ ": " ++ quote (snd o) ++ nl
  ++ "  }".

Definition separator : string := "," ++ nl.

Definition sampleMarshalIndent (l : list (string * string)) : result string :=
  match l with
  | [] => Ok "[]"
  | _ => Ok ("[" ++ nl ++ String.concat separator (map encodeObject l) ++ nl ++ "]")
  end.

Definition hexValue (c : ascii) : option nat :=
  let n := nat_of_ascii c in
  if ((48 <=? n) && (n <=? 57))%nat then Some (n - 48)
  else if ((97 <=? n) && (n <=? 102))%nat then Some (n - 87)
  else if ((65 <=? n) && (n <=? 70))%nat then Some (n - 55)
  else None.

(** The UTF-8 encoding of a code point of the basic plane. *)
Definition utf8 (cp : nat) : string :=
  if (cp <? 128)%nat then bytes [cp]
  else if (cp <? 2048)%nat then bytes [192 + cp / 64; 128 + cp mod 64]
  else bytes [224 + cp / 4096; 128 + (cp / 64) mod 64; 128 + cp mod 64].

(** The characters of a string literal after its opening quote, and
    what follows the closing quote. *)
Fixpoint stringBody (s : string) : option (string * string) :=
  match s with
  | EmptyString => None
  | String c r =>
      if (nat_of_ascii c =? 34)%nat then Some (EmptyString, r)
      else if (nat_of_ascii c =? 92)%nat then
        match r with
        | EmptyString => None
        | String e r1 =>
            let simple (x : string) :=
              match stringBody r1 with
              | Some (body, rest) => Some (x ++ body, rest)
              | None => None
              end in
            match e with
            | "b"%char => simple (bytes [8])
            | "f"%char => simple (bytes [12])
            | "n"%char => simple (bytes [10])
            | "r"%char => simple (bytes [13])
            | "t"%char => simple (bytes [9])
            | "/"%char => simple "/"
            | "\"%char => simple "\"
            | "u"%char =>
                match r1 with
                | String h1 (String h2 (String h3 (String h4 r5))) =>
                    match hexValue h1, hexValue h2, hexValue h3, hexValue h4 with
                    | Some a, Some b, Some c', Some d =>
                        match stringBody r5 with
                        | Some (body, rest) =>
                            Some (utf8 (((a * 16 + b) * 16 + c') * 16 + d) ++ body, rest)
                        | None => None
                        end
                    | _, _, _, _ => None
                    end
                | _ => None
                end
            | _ => if (nat_of_ascii e =? 34)%nat then simple dq else None
            end
        end
      else
        match stringBody r with
        | Some (body, rest) => Some (String c body, rest)
        | None => None
        end
  end.

(** The white space of JSON: space, tab, line feed, carriage return. *)
Definition blank (c : ascii) : bool :=
  let n := nat_of_ascii c in
  ((n =? 32) || (n =? 9) || (n =? 10) || (n =? 13))%nat.

Fixpoint skipWs (s : string) : string :=
  match s with
  | String c r => if blank c then skipWs r else s
  | EmptyString => EmptyString
  end.

(** A string literal, after white space. *)
Definition literal (s : string) : option (string * string) :=
  match skipWs s with
  | String c r => if (nat_of_ascii c =? 34)%nat then stringBody r else None
  | EmptyString => None
  end.

Definition expect (c : ascii) (s : string) : option string :=
  match skipWs s with
  | String c' r => if Ascii.eqb c c' then Some r else None
  | EmptyString => None
  end.

Definition setKey (key value : string) (o : string * string) : string * string :=
  if asciiEqualFold key "name" then (value, snd o)
  else if asciiEqualFold key "user_data_dir" then (fst o, value)
  else o.

(** The members of an object after its opening brace. *)
Fixpoint members (fuel : nat) (s : string) (o : string * string)
  : option ((string * string) * string) :=
  match fuel with
  | O => None
  | S fuel' =>
      match literal s with
      | None => None
      | Some (key, s1) =>
          match expect ":" s1 with
          | None => None
          | Some s2 =>
              match literal s2 with
              | None => None
              | Some (value, s3) =>
                  let o' := setKey key value o in
                  match expect "," s3 with
                  | Some s4 => members fuel' s4 o'
                  | None =>
                      match expect "}" s3 with
                      | Some s4 => Some (o', s4)
                      | None => None
                      end
                  end
              end
          end
      end
  end.

Definition object (fuel : nat) (s : string) : option ((string * string) * string) :=
  match expect "{" s with
  | None => None
  | Some s1 =>
      match expect "}" s1 with
      | Some s2 => Some (("", ""), s2)
      | None => members fuel s1 ("", "")
      end
  end.

(** The elements of an array after its opening bracket. *)
Fixpoint elements (fuel : nat) (s : string) : option (list (string * string) * string) :=
  match fuel with
  | O => None
  | S fuel' =>
      match object fuel' s with
      | None => None
      | Some (o, s1) =>
          match expect "," s1 with
          | Some s2 =>
              match elements fuel' s2 with
              | Some (l, rest) => Some (o :: l, rest)
              | None => None
              end
          | None =>
              match expect "]" s1 with
              | Some s2 => Some ([o], s2)
              | None => None
              end
          end
      end
  end.

Definition sampleUnmarshal (data : string) : result (list (string * string)) :=
  let syntax := Err (SysError "invalid character") in
  match expect "[" data with
  | None => syntax
  | Some s1 =>
      let parsed :=
        match expect "]" s1 with
        | Some s2 => Some ([], s2)
        | None => elements (S (String.length data)) s1
        end in
      match parsed with
      | Some (l, rest) =>
          match skipWs rest with
          | EmptyString => Ok l
          | _ => syntax
          end
      | None => syntax
      end
  end.

(** *** Runtimes *)

Definition unixRuntime (goos : string) (home wd : result string) : Runtime :=
  {| GOOS := goos;
     Getenv := fun _ => "";
     UserHomeDir := home;
     Abs := unixAbs wd;
     IsAbs := unixIsAbs;
     Join := unixJoin;
     Dir := unixDir;
     EqualFold := asciiEqualFold;
     MarshalIndent := sampleMarshalIndent;
     Unmarshal := sampleUnmarshal |}.

Definition linux : Runtime := unixRuntime "linux" (Ok "/home/u") (Ok "/work").
Definition darwin : Runtime := unixRuntime "darwin" (Ok "/Users/u") (Ok "/work").

(** *** The simulated world *)

Record World : Type := {
  files : list (string * string);
  writable : bool;
  canSpawn : bool;
  nextPid : Z;
  matching : list Z;
  alive : list Z;
  mayKill : bool
}.

Fixpoint lookup (path : string) (fs : list (string * string)) : option string :=
  match fs with
  | [] => None
  | (p, d) :: r => if p =? path then Some d else lookup path r
  end.

Definition removePid (pid : Z) (l : list Z) : list Z :=
  filter (fun p => negb (p =? pid)%Z) l.

Definition hasPid (pid : Z) (l : list Z) : bool :=
  existsb (fun p => (p =? pid)%Z) l.

Definition pidLines (l : list Z) : string :=
  String.concat "" (map (fun p => Itoa p ++ nl) l).

Definition denied : error := SysError "permission denied".

Definition signalIn (w : World) (pid : Z) : option error * World :=
  if hasPid pid (alive w) then
    if mayKill w then
      (None, {| files := files w; writable := writable w; canSpawn := canSpawn w;
                nextPid := nextPid w; matching := removePid pid (matching w);
                alive := removePid pid (alive w); mayKill := mayKill w |})
    else (Some (SysError "operation not permitted"), w)
  else (Some ESRCH, w).

(** The matcher lists the processes of [matching] that are alive, one
    process id a line, and exits with status 1 when there is none, as
    [pgrep] and [grep] do. *)
Definition simulate : Handler World :=
  fun X c =>
    match c in Call T return World -> T * World with
    | ReadFile path => fun w =>
        (match lookup path (files w) with
         | Some d => Ok d
         | None => Err ErrNotExist
         end, w)
    | MkdirAll _ _ => fun w => (None, w)
    | WriteFile path data _ => fun w =>
        if writable w then
          (None, {| files := (path, data) :: files w; writable := writable w;
                    canSpawn := canSpawn w; nextPid := nextPid w;
                    matching := matching w; alive := alive w;
                    mayKill := mayKill w |})
        else (Some denied, w)
    | CmdStart _ _ => fun w =>
        if canSpawn w then
          (Ok {| Pid := nextPid w |},
           {| files := files w; writable := writable w; canSpawn := canSpawn w;
              nextPid := nextPid w + 1; matching := nextPid w :: matching w;
              alive := nextPid w :: alive w; mayKill := mayKill w |})
        else (Err (SysError "executable file not found in $PATH"), w)
    | CmdOutput _ _ => fun w =>
        (match filter (fun p => hasPid p (alive w)) (matching w) with
         | [] => ("", Some (ExitError 1))
         | found => (pidLines found, None)
         end, w)
    | CmdRun _ _ => fun w => (None, w)
    | ProcessWait p => fun w =>
        (({| Exited := true |}, None),
         {| files := files w; writable := writable w; canSpawn := canSpawn w;
            nextPid := nextPid w; matching := removePid (Pid p) (matching w);
            alive := removePid (Pid p) (alive w); mayKill := mayKill w |})
    | FindProcess pid => fun w => (Ok {| Pid := pid |}, w)
    | ProcessSignal p _ => fun w => signalIn w (Pid p)
    end.

Definition quiet : World :=
  {| files := []; writable := true; canSpawn := true; nextPid := 100;
     matching := []; alive := []; mayKill := true |}.

End Sample.

(** ** Scenarios on the simulated world *)

Module Scenario.

Import Config Chrome Sample.

Definition withProcesses (pids : list Z) (permitted : bool) : World :=
  {| files := []; writable := true; canSpawn := true; nextPid := 100;
     matching := pids; alive := pids; mayKill := permitted |}.

(** A browser without a directory argument, started by someone else,
    is running. *)
Definition browserSeen : World := withProcesses [4242%Z] true.

(** The processes the matcher finds belong to another user. *)
Definition foreignProcess : World := withProcesses [200%Z] false.

(** No executable to start. *)
Definition noSpawn : World :=
  {| files := []; writable := true; canSpawn := false; nextPid := 100;
     matching := []; alive := []; mayKill := true |}.

Definition work : ChromeConfig :=
  {| Name := "work"; UserDataDir := "/profiles/work"; IsDefault := false |}.

Definition play : ChromeConfig :=
  {| Name := "play"; UserDataDir := "profiles/play"; IsDefault := false |}.

(** A configuration file that holds [work] and [play] and cannot be
    written. *)
Definition readOnly : World :=
  {| files := [(configFile linux,
                match sampleMarshalIndent [toJSON work; toJSON play] with
                | Ok data => data
                | Err _ => ""
                end)];
     writable := false; canSpawn := true;
     nextPid := 100; matching := []; alive := []; mayKill := true |}.

(** A platform the code has no case for. *)
Definition freebsd : Runtime := unixRuntime "freebsd" (Ok "/home/u") (Ok "/work").


Definition stopped (cfg : ChromeConfig) : Instance :=
  {| config := cfg; cmd := None; isRunning := false |}.

(** Marked running at construction, without a command object. *)
Definition observed (cfg : ChromeConfig) : Instance :=
  {| config := cfg; cmd := None; isRunning := true |}.

(** Started by this supervisor as process [pid]. *)
Definition launched (cfg : ChromeConfig) (pid : Z) : Instance :=
  {| config := cfg;
     cmd := Some {| Path := "google-chrome";
                    Args := ["--user-data-dir=" ++ UserDataDir cfg;
                             "--no-first-run"; "--no-default-browser-check"];
                    CmdProcess := Some {| Pid := pid |};
                    CmdProcessState := None |};
     isRunning := true |}.

End Scenario.

(** ** Notions the statements use *)

(** The entries of a list that are not the default sentinel. *)
Definition userProfiles (cfgs : list Config.ChromeConfig) : list Config.ChromeConfig :=
  filter (fun cfg => negb (Config.IsDefault cfg)) cfgs.

(** An entry as [SaveConfigs] writes it: not flagged default, not named
    as the sentinel, with a directory that is neither empty nor the
    default directory of the browser. *)
Definition persistable (rt : Runtime) (cfg : Config.ChromeConfig) : Prop :=
  Config.IsDefault cfg = false
  /\ Config.Name cfg <> Config.DefaultChromeConfigName
  /\ Config.UserDataDir cfg <> ""
  /\ Config.usesDefaultDir rt (Config.UserDataDir cfg) = false.

(** The configuration file, read in state [s], decodes to [entries]. *)
Definition fileDecodesTo (rt : Runtime) {W : Type} (os : Handler W) (s : Sys W)
           (entries : list Config.ChromeConfig) : Prop :=
  exists data : string,
    fst (os _ (ReadFile (Config.configFile rt)) (world s)) = Ok data
    /\ Unmarshal rt data = Ok (map Config.toJSON entries).

(** Two directories that [AddConfig] takes for the same one: both
    absolute paths are known and equal, letter case aside. *)
Definition sameDir (rt : Runtime) (d1 d2 : string) : Prop :=
  exists a1 a2 : string,
    Abs rt d1 = Ok a1 /\ Abs rt d2 = Ok a2 /\ EqualFold rt a1 a2 = true.

(** No entry of the list has the directory of an earlier one. *)
Fixpoint dirsDistinct (rt : Runtime) (l : list Config.ChromeConfig) : Prop :=
  match l with
  | [] => True
  | cfg :: rest =>
      Forall (fun later => ~ sameDir rt (Config.UserDataDir cfg)
                                     (Config.UserDataDir later)) rest
      /\ dirsDistinct rt rest
  end.

(** The calls by which [chromeStop] ends a process: a process lookup,
    a termination signal, [taskkill]. *)
Definition isKillCall (e : Event) : bool :=
  match e with
  | EvOS (FindProcess _) => true
  | EvOS (ProcessSignal _ SIGTERM) => true
  | EvOS (CmdRun name _) => name =? "taskkill"
  | _ => false
  end.

(** A computation logs only events that satisfy [P]. *)
Definition logsOnly {W A : Type} (P : Event -> bool) (m : M (Sys W) A) : Prop :=
  forall w : W, forallb P (log (snd (m (mkSys w [])))) = true.

Definition isDiscovery (e : Event) : bool :=
  match e with
  | EvOS (CmdOutput _ _) => true
  | _ => false
  end.

(** The calls on the configuration file. *)
Definition isFileCall (e : Event) : bool :=
  match e with
  | EvOS (ReadFile _) => true
  | EvOS (MkdirAll _ _) => true
  | EvOS (WriteFile _ _ _) => true
  | _ => false
  end.

(** The states an instance of the profile [cfg] can be in: built by
    [NewInstance], then taken through any sequence of method calls, in
    any world. *)
Inductive reachable (rt : Runtime) {W : Type} (os : Handler W)
          (cfg : Config.ChromeConfig) : Chrome.Instance -> Prop :=
  | reach_new (s : Sys W) :
      reachable rt os cfg (fst (Chrome.NewInstance rt os cfg s))
  | reach_Start (ci : Chrome.Instance) (s : Sys W) :
      reachable rt os cfg ci ->
      reachable rt os cfg (Chrome.self (snd (Chrome.Start rt os (Chrome.mkISt s ci))))
  | reach_Stop (ci : Chrome.Instance) (s : Sys W) :
      reachable rt os cfg ci ->
      reachable rt os cfg (Chrome.self (snd (Chrome.Stop rt os (Chrome.mkISt s ci))))
  | reach_IsRunning (ci : Chrome.Instance) (s : Sys W) :
      reachable rt os cfg ci ->
      reachable rt os cfg (Chrome.self (snd (Chrome.IsRunning (Chrome.mkISt s ci))))
  | reach_SetRunningState (ci : Chrome.Instance) (s : Sys W) (b : bool) :
      reachable rt os cfg ci ->
      reachable rt os cfg
        (Chrome.self (snd (Chrome.SetRunningState b (Chrome.mkISt s ci))))
  | reach_Wait (ci : Chrome.Instance) (s : Sys W) :
      reachable rt os cfg ci ->
      reachable rt os cfg (Chrome.self (snd (Chrome.Wait os (Chrome.mkISt s ci)))).

(** What holds of every reachable instance of [cfg]: it is bound to
    [cfg], and a command object it holds was started, with the launch
    command of the profile. *)
Definition handleOwned (rt : Runtime) (cfg : Config.ChromeConfig)
           (ci : Chrome.Instance) : Prop :=
  Chrome.config ci = cfg
  /\ forall c : Chrome.Cmd,
       Chrome.cmd ci = Some c ->
       (exists p : Process, Chrome.CmdProcess c = Some p)
       /\ Chrome.launchCommand rt (Config.UserDataDir cfg)
          = Ok (Chrome.Path c, Chrome.Args c).

(** * Properties *)

(** ** The log is append-only *)

Section LogFrame.

Variable W : Type.
Variable os : Handler W.

Lemma appendsToLog_ret (A : Type) (a : A) : appendsToLog (W := W) (ret a).
Proof. intros w l. unfold ret. cbn. now rewrite app_nil_r. Qed.

Lemma appendsToLog_call (X : Type) (c : Call X) : appendsToLog (call os c).
Proof.
  intros w l. unfold call. cbn.
  destruct (@os X c w) as [x w1]. reflexivity.
Qed.

Lemma appendsToLog_bind (A B : Type) (m : M (Sys W) A) (k : A -> M (Sys W) B) :
  appendsToLog m -> (forall a, appendsToLog (k a)) -> appendsToLog (bind m k).
Proof.
  intros Hm Hk w l. unfold bind.
  rewrite (Hm w l).
  destruct (m (mkSys w [])) as [a [w1 l1]]. cbn.
  rewrite (Hk a w1 (l ++ l1)%list), (Hk a w1 l1).
  destruct (k a (mkSys w1 [])) as [b [w2 l2]]. cbn.
  now rewrite app_assoc.
Qed.

Lemma wellLogged_ret (A : Type) (a : A) : wellLogged (W := W) (ret a).
Proof. split; [apply appendsToLog_ret | intros w; constructor]. Qed.

Lemma wellLogged_call (X : Type) (c : Call X) : wellLogged (call os c).
Proof.
  split; [apply appendsToLog_call|].
  intros w. unfold call. cbn. destruct (@os X c w) as [x w1]. cbn.
  repeat constructor.
Qed.

Lemma wellLogged_bind (A B : Type) (m : M (Sys W) A) (k : A -> M (Sys W) B) :
  wellLogged m -> (forall a, wellLogged (k a)) -> wellLogged (bind m k).
Proof.
  intros [Fm Om] Hk. split.
  - apply appendsToLog_bind; [assumption | intros a; apply Hk].
  - intros w. unfold bind.
    specialize (Om w). destruct (m (mkSys w [])) as [a [w1 l1]]. cbn in Om.
    destruct (Hk a) as [Fk Ok].
    rewrite (Fk w1 l1). cbn. apply Forall_app. split; [assumption | apply Ok].
Qed.



End LogFrame.

Create HintDb frame.

#[local] Hint Resolve wellLogged_ret wellLogged_call : frame.

Section MatcherFrame.

Import Config Chrome.

Variable rt : Runtime.
Variable W : Type.
Variable os : Handler W.

Lemma wellLogged_killAll (pids : list string) :
  forall killed last, wellLogged (killAll rt os pids killed last).
Proof.
  induction pids as [|pidStr rest IH]; intros killed last; cbn.
  - auto with frame.
  - destruct (TrimSpace pidStr =? ""); [apply IH|].
    destruct (Atoi (TrimSpace pidStr)) as [pid|]; [|apply IH].
    destruct (GOOS rt =? "windows").
    + apply wellLogged_bind; [auto with frame|].
      intros [e|]; [destruct (isExit 128 e)|]; apply IH.
    + apply wellLogged_bind; [auto with frame|].
      intros [process|e].
      * apply wellLogged_bind; [auto with frame|].
        intros [e|]; [destruct (isESRCH e)|]; apply IH.
      * destruct (isESRCH e || Contains (ErrorText e) "process already finished");
          apply IH.
Qed.

(** The fallback logs its operating-system calls and nothing else, and
    does the same whatever was logged before. *)
Lemma wellLogged_chromeStop (userDataDir : string) :
  wellLogged (chromeStop rt os userDataDir).
Proof.
  unfold chromeStop.
  destruct (findCommand rt userDataDir) as [[name args]|e]; [|auto with frame].
  apply wellLogged_bind; [auto with frame|].
  intros [output [e|]].
  - destruct (findFailureIsNotFound userDataDir output e); auto with frame.
  - destruct (TrimSpace output =? ""); [auto with frame|].
    match goal with |- wellLogged (if ?b then _ else _) => destruct b end;
      [auto with frame|].
    apply wellLogged_bind; [apply wellLogged_killAll|].
    intros [[|] [e|]]; auto with frame.
Qed.

Lemma appendsToLog_chromeStop (userDataDir : string) :
  appendsToLog (chromeStop rt os userDataDir).
Proof. apply wellLogged_chromeStop. Qed.


End MatcherFrame.

(** ** The instance supervisor *)

Ltac unfold_methods :=
  unfold Chrome.lock, Chrome.unlock, Chrome.readIsRunning, Chrome.readCmd,
    Chrome.writeIsRunning, Chrome.writeCmd, Chrome.getConfig, Chrome.emit,
    Chrome.liftSys, call, bind, ret in *.

Ltac settle :=
  repeat split; intros;
  repeat match goal with
    | H : Some _ = Some _ |- _ => inversion H; subst; clear H
    | H : Some _ = None |- _ => discriminate H
    | H : None = Some _ |- _ => discriminate H
    | |- if ?b then _ else _ => destruct b
    end;
  cbn; auto; try congruence.

Ltac destruct_fallback stopped se :=
  match goal with
  | |- context [Chrome.chromeStop ?rt ?os ?d ?st] =>
      destruct (Chrome.chromeStop rt os d st) as [[stopped [se|]] ?]
  end.

Section Supervisor.

Import Config Chrome.

Variable rt : Runtime.
Variable W : Type.
Variable os : Handler W.

(** C6. [Stop] on an instance whose running flag is false returns the
    not-running error; it leaves the instance and the world as they
    were and adds no operating-system call to the log: no signal, no
    discovery, no kill. *)
Theorem Stop_not_running_makes_no_call (s : Sys W) (cfg : ChromeConfig)
        (c : option Cmd) :
  let ci := {| config := cfg; cmd := c; isRunning := false |} in
  let out := Stop rt os (mkISt s ci) in
  fst out = Some (StopNotRunning (Name cfg))
  /\ kindOf (StopNotRunning (Name cfg)) = NotRunningError
  /\ self (snd out) = ci
  /\ world (sys (snd out)) = world s
  /\ log (sys (snd out)) = (log s ++ [EvLock; EvRead FIsRunning; EvUnlock])%list
  /\ osCalls (log (sys (snd out))) = osCalls (log s).
Proof.
  unfold Stop. unfold_methods. cbn.
  repeat split.
  - now rewrite <- !app_assoc.
  - unfold osCalls. rewrite !filter_app. cbn. now rewrite !app_nil_r.
Qed.

(** C10. [Wait] on an instance that holds no command object returns
    nil at once, whatever the running flag was: it clears the flag and
    the handle and makes no operating-system call, so a process seen
    running at construction is reported stopped. *)
Theorem Wait_without_handle_marks_stopped (s : Sys W) (cfg : ChromeConfig)
        (running : bool) :
  let ci := {| config := cfg; cmd := None; isRunning := running |} in
  let out := Wait os (mkISt s ci) in
  fst out = None
  /\ self (snd out) = {| config := cfg; cmd := None; isRunning := false |}
  /\ world (sys (snd out)) = world s
  /\ osCalls (log (sys (snd out))) = osCalls (log s)
  /\ fst (IsRunning (snd out)) = false.
Proof.
  unfold Wait, IsRunning. unfold_methods. cbn.
  repeat split.
  unfold osCalls. rewrite !filter_app. cbn. now rewrite !app_nil_r.
Qed.

(** C4. When [Start] returns an error, the instance is what it was:
    neither the running flag nor the handle was written.  The error is
    the already-running one or a launch error, and after a launch
    error the running flag is false. *)
Theorem Start_error_keeps_state (s : Sys W) (ci : Instance) (e : error)
        (s' : ISt W) :
  Start rt os (mkISt s ci) = (Some e, s') ->
  self s' = ci
  /\ filter isWrite (log (sys s')) = filter isWrite (log s)
  /\ (kindOf e = AlreadyRunningError \/ kindOf e = LaunchError)
  /\ (kindOf e = AlreadyRunningError -> isRunning ci = true)
  /\ (kindOf e = LaunchError -> isRunning (self s') = false).
Proof.
  unfold Start. unfold_methods. cbn.
  destruct (isRunning ci) eqn:R; cbn.
  - intros H; inversion H; subst; cbn.
    rewrite !filter_app; cbn. rewrite !app_nil_r.
    repeat split; auto; discriminate.
  - unfold launchCommand.
    destruct (launchCommand rt (UserDataDir (config ci))) as [[name args]|e0] eqn:L;
      unfold launchCommand in L; rewrite L; cbn.
    + destruct (@os _ (CmdStart name args) (world s)) as [[p|e1] w'] eqn:Hos; cbn.
      * intros H; inversion H.
      * intros H; inversion H; subst; cbn.
        rewrite !filter_app; cbn. rewrite !app_nil_r.
        repeat split; auto; discriminate.
    + intros H; inversion H; subst; cbn.
      rewrite !filter_app; cbn. rewrite !app_nil_r.
      assert (K : kindOf e = LaunchError).
      { destruct (GOOS rt =? "darwin").
        - destruct (negb (UserDataDir (config ci) =? "")).
          + destruct (Abs rt (UserDataDir (config ci))); inversion L; reflexivity.
          + discriminate.
        - destruct (GOOS rt =? "windows").
          + destruct (negb (UserDataDir (config ci) =? "")); discriminate.
          + destruct (GOOS rt =? "linux");
              destruct (negb (UserDataDir (config ci) =? "")); discriminate. }
      repeat split; auto. rewrite K. discriminate.
Qed.

(** Whatever [Stop] finds, when it returns an error the instance is
    what it was. *)
Lemma Stop_error_keeps_instance (s : Sys W) (ci : Instance) (e : error)
      (s' : ISt W) :
  Stop rt os (mkISt s ci) = (Some e, s') -> self s' = ci.
Proof.
  unfold Stop. unfold_methods. cbn -[chromeStop].
  destruct (isRunning ci); cbn -[chromeStop].
  - destruct (ownedProcess (cmd ci)) as [p|]; cbn -[chromeStop].
    + destruct (@os _ (ProcessSignal p SIGTERM) (world s)) as [[e1|] w1];
        cbn -[chromeStop].
      * destruct_fallback stopped se; cbn.
        -- intros H; inversion H; reflexivity.
        -- destruct stopped; cbn; intros H; inversion H; reflexivity.
      * intros H; inversion H.
    + destruct_fallback stopped se; cbn.
      * intros H; inversion H; reflexivity.
      * destruct stopped; cbn; intros H; inversion H; reflexivity.
  - intros H; inversion H; reflexivity.
Qed.

(** C1, as the code has it.  A running instance without an owned
    process makes exactly the operating-system calls of the fallback
    [chromeStop] on the directory of its profile.  When that fallback
    reports that it found no process, [Stop] returns the error "could
    not find chrome process", of the class of stop errors, and the
    instance stays marked running. *)
Theorem Stop_external_nothing_found_errors (w : W) (cfg : ChromeConfig)
        (c : option Cmd) :
  ownedProcess c = None ->
  let ci := {| config := cfg; cmd := c; isRunning := true |} in
  let out := Stop rt os (freshISt w ci) in
  let fallback := chromeStop rt os (UserDataDir cfg) (freshSys w) in
  osCalls (log (sys (snd out))) = osCalls (log (snd fallback))
  /\ world (sys (snd out)) = world (snd fallback)
  /\ (fst fallback = (false, None) ->
      fst out = Some (StopNotFound (Name cfg) (UserDataDir cfg))
      /\ kindOf (StopNotFound (Name cfg) (UserDataDir cfg)) = StopError
      /\ self (snd out) = ci
      /\ isRunning (self (snd out)) = true).
Proof.
  intros Hc. unfold Stop, freshISt, freshSys. unfold_methods.
  cbn -[chromeStop]. rewrite Hc. cbn -[chromeStop].
  rewrite (appendsToLog_chromeStop rt os (UserDataDir cfg) w
             [EvLock; EvRead FIsRunning; EvRead FCmd]).
  destruct (chromeStop rt os (UserDataDir cfg) (mkSys w []))
    as [[stopped [se|]] [w1 l1]]; cbn.
  - unfold osCalls. rewrite !filter_app. cbn. rewrite app_nil_r.
    repeat split. discriminate.
  - destruct stopped; cbn; unfold osCalls; rewrite !filter_app; cbn;
      rewrite ?app_nil_r; repeat split; discriminate.
Qed.

(** C3, as the code has it.  With an owned process and the running
    flag set, the first operating-system call of [Stop] is the
    termination signal to that process.  When the signal is delivered
    [Stop] succeeds at once.  When it is not, [Stop] runs the fallback
    [chromeStop] on the directory of the profile and succeeds exactly
    when the fallback reports a stop: it returns an error when the
    fallback found nothing and also when the fallback itself failed.
    Whenever [Stop] returns an error the running flag is still true. *)
Theorem Stop_owned_signal_then_fallback (w : W) (cfg : ChromeConfig)
        (c : Cmd) (p : Process) :
  CmdProcess c = Some p ->
  let ci := {| config := cfg; cmd := Some c; isRunning := true |} in
  let out := Stop rt os (freshISt w ci) in
  let signal := os (ProcessSignal p SIGTERM) w in
  let fallback := chromeStop rt os (UserDataDir cfg) (freshSys (snd signal)) in
  hd_error (osCalls (log (sys (snd out)))) = Some (EvOS (ProcessSignal p SIGTERM))
  /\ (fst signal = None ->
      fst out = None
      /\ isRunning (self (snd out)) = false
      /\ osCalls (log (sys (snd out))) = [EvOS (ProcessSignal p SIGTERM)])
  /\ (forall e, fst signal = Some e ->
      osCalls (log (sys (snd out)))
      = EvOS (ProcessSignal p SIGTERM) :: osCalls (log (snd fallback))
      /\ match fst fallback with
         | (true, None) => fst out = None /\ isRunning (self (snd out)) = false
         | (false, None) => fst out = Some (StopSignalAndNotFound (Name cfg) e)
         | (_, Some se) =>
             fst out = Some (StopSignalAndFallbackFailed (Name cfg) e se)
         end)
  /\ (forall e, fst out = Some e ->
      kindOf e = StopError /\ self (snd out) = ci
      /\ isRunning (self (snd out)) = true).
Proof.
  intros Hp. unfold Stop, freshISt, freshSys. unfold_methods.
  cbn -[chromeStop]. rewrite Hp. cbn -[chromeStop].
  destruct (@os _ (ProcessSignal p SIGTERM) w) as [[e1|] w1]; cbn -[chromeStop].
  - rewrite (appendsToLog_chromeStop rt os (UserDataDir cfg) w1
               [EvLock; EvRead FIsRunning; EvRead FCmd;
                EvOS (ProcessSignal p SIGTERM)]).
    destruct (chromeStop rt os (UserDataDir cfg) (mkSys w1 []))
      as [[stopped [se|]] [w2 l2]]; cbn.
    + unfold osCalls; rewrite !filter_app; cbn; rewrite ?app_nil_r. settle.
    + destruct stopped; cbn; unfold osCalls; rewrite !filter_app; cbn;
        rewrite ?app_nil_r; settle.
  - settle.
Qed.

(** C5, as the code has it.  [Start] takes the mutex once and all its
    reads and writes of the guarded fields lie inside that one
    critical section.  On an instance already marked running it
    returns the already-running error and changes nothing.  On a
    stopped instance, when the launch command can be built and the
    operating system starts it, [Start] returns nil, the check of the
    flag and its update lie between one lock and its unlock, and
    [IsRunning] called next answers true. *)
Theorem Start_then_IsRunning (w : W) (ci : Instance) :
  let out := Start rt os (freshISt w ci) in
  lockDisciplined (log (sys (snd out))) = true
  /\ criticalSections (log (sys (snd out))) = 1
  /\ (isRunning ci = true ->
      fst out = Some (StartAlreadyRunning (Name (config ci)))
      /\ kindOf (StartAlreadyRunning (Name (config ci))) = AlreadyRunningError
      /\ self (snd out) = ci
      /\ sys (snd out) = mkSys w [EvLock; EvRead FIsRunning; EvUnlock])
  /\ (isRunning ci = false ->
      forall (name : string) (args : list string) (p : Process) (w' : W),
        launchCommand rt (UserDataDir (config ci)) = Ok (name, args) ->
        os (CmdStart name args) w = (Ok p, w') ->
        fst out = None
        /\ log (sys (snd out))
           = [EvLock; EvRead FIsRunning; EvOS (CmdStart name args);
              EvWrite FCmd; EvWrite FIsRunning; EvUnlock]
        /\ isRunning (self (snd out)) = true
        /\ fst (IsRunning (snd out)) = true).
Proof.
  unfold Start, IsRunning, freshISt, freshSys. unfold_methods.
  cbn -[launchCommand].
  destruct (isRunning ci) eqn:R; cbn -[launchCommand].
  - settle.
  - destruct (launchCommand rt (UserDataDir (config ci))) as [[name args]|e0] eqn:L;
      cbn.
    + destruct (@os _ (CmdStart name args) w) as [[p|e1] w1] eqn:Hos; cbn.
      * settle.
      * settle.
    + settle.
Qed.


End Supervisor.

(** ** The profile registry *)

Section Registry.

Import Config.

Variable rt : Runtime.
Variable W : Type.
Variable os : Handler W.

Lemma scanForRemoval_spec (name : string) (current : list ChromeConfig) :
  scanForRemoval name current
  = (existsb (fun cfg => Name cfg =? name) current,
     filter (fun cfg => negb (Name cfg =? name)) current).
Proof.
  induction current as [|cfg rest IH]; cbn; [reflexivity|].
  rewrite IH. destruct (Name cfg =? name); reflexivity.
Qed.

Lemma existsb_name (name : string) (current : list ChromeConfig) :
  existsb (fun cfg => Name cfg =? name) current = true
  <-> In name (map Name current).
Proof.
  rewrite existsb_exists, in_map_iff. split.
  - intros [cfg [Hin Heq]]. apply String.eqb_eq in Heq. now exists cfg.
  - intros [cfg [Heq Hin]]. exists cfg. split; [assumption|].
    now apply String.eqb_eq.
Qed.

(** What [SaveConfigs] writes: the entries not flagged default, in
    order, each of them persistable. *)
Lemma userConfigsToSave_ok (cfgs userConfigs : list ChromeConfig) :
  userConfigsToSave rt cfgs = Ok userConfigs ->
  userConfigs = userProfiles cfgs /\ Forall (persistable rt) userConfigs.
Proof.
  revert userConfigs.
  induction cfgs as [|cfg rest IH]; cbn; intros userConfigs H.
  - inversion H. split; constructor.
  - destruct (IsDefault cfg) eqn:D; cbn; [now apply IH|].
    destruct (Name cfg =? DefaultChromeConfigName) eqn:N; [discriminate|].
    destruct (UserDataDir cfg =? "") eqn:E; [discriminate|].
    destruct (usesDefaultDir rt (UserDataDir cfg)) eqn:U; [discriminate|].
    destruct (userConfigsToSave rt rest) as [l|e]; [|discriminate].
    inversion H; subst. destruct (IH l eq_refl) as [Hl Hall].
    split; [now rewrite Hl|].
    constructor; [|assumption].
    repeat split; auto; now apply String.eqb_neq.
Qed.

(** When the default directory of the browser is not known, no
    directory counts as the default one. *)
Lemma usesDefaultDir_unknown (dir : string) :
  GetDefaultUserDataDir rt = "" -> usesDefaultDir rt dir = false.
Proof. intros H. unfold usesDefaultDir. now rewrite H. Qed.

(** [LoadConfigs] keeps every persistable entry as it was written. *)
Lemma validUserConfigs_persistable (l : list ChromeConfig) :
  Forall (persistable rt) l ->
  validUserConfigs rt (map ofJSON (map toJSON l)) = l.
Proof.
  induction 1 as [|cfg rest [D [N [E U]]] Hrest IH]; cbn; [reflexivity|].
  apply String.eqb_neq in N. apply String.eqb_neq in E.
  rewrite N, U, E, IH.
  destruct cfg as [n d b]; cbn in *. now subst.
Qed.


(** C8. Whatever the name, [AddConfig] with a directory whose absolute
    path equals, letter case aside, that of the default directory of
    the browser returns an error of the class of validation errors,
    together with the list it was given; nothing is written. *)
Theorem Add_default_directory_rejected (s : Sys W) (name dir : string)
        (current : list ChromeConfig) (absDir absDefault : string) :
  GetDefaultUserDataDir rt <> "" ->
  Abs rt dir = Ok absDir ->
  Abs rt (GetDefaultUserDataDir rt) = Ok absDefault ->
  EqualFold rt absDir absDefault = true ->
  exists e : error,
    AddConfig rt os name dir current s = ((current, Some e), s)
    /\ kindOf e = ValidationError.
Proof.
  intros Hd Ha Hb Hf. unfold AddConfig.
  destruct (name =? DefaultChromeConfigName).
  { exists AddReservedName. split; reflexivity. }
  destruct (TrimSpace dir =? "").
  { exists AddEmptyDir. split; reflexivity. }
  assert (U : usesDefaultDir rt dir = true).
  { unfold usesDefaultDir. rewrite Ha, Hb, Hf.
    apply String.eqb_neq in Hd. now rewrite Hd. }
  rewrite U. exists (AddDefaultDir dir). split; reflexivity.
Qed.

(** C9, as the code has it.  [RemoveConfig] with the reserved name
    returns the protected-entity error whether or not the list holds
    that name.  With another name that no entry carries it returns the
    not-found error.  In both cases it returns the list it was given
    and calls nothing.  Otherwise it hands the list without the
    entries of that name to [SaveConfigs]: when that succeeds it
    returns the shortened list, and when that fails it returns the
    list it was given, with the error. *)
Theorem Remove_outcomes (s : Sys W) (name : string)
        (current : list ChromeConfig) :
  let out := RemoveConfig rt os name current s in
  let updated := filter (fun cfg => negb (Name cfg =? name)) current in
  let saved := SaveConfigs rt os updated s in
  (name = DefaultChromeConfigName ->
     out = ((current, Some RemoveDefault), s)
     /\ kindOf RemoveDefault = ProtectedEntityError)
  /\ (name <> DefaultChromeConfigName -> ~ In name (map Name current) ->
      out = ((current, Some (RemoveNotFound name)), s)
      /\ kindOf (RemoveNotFound name) = NotFoundError)
  /\ (name <> DefaultChromeConfigName -> In name (map Name current) ->
      snd out = snd saved
      /\ ~ In name (map Name updated)
      /\ match fst saved with
         | None => fst out = (updated, None)
         | Some e => fst out = (current, Some (RemoveSaveFailed e))
         end).
Proof.
  unfold RemoveConfig. rewrite scanForRemoval_spec.
  destruct (name =? DefaultChromeConfigName) eqn:N.
  - apply String.eqb_eq in N. repeat split; intros; congruence.
  - apply String.eqb_neq in N.
    destruct (existsb (fun cfg => Name cfg =? name) current) eqn:F; cbn.
    + apply existsb_name in F. repeat split; intros; try congruence.
      * unfold bind. destruct (SaveConfigs rt os _ s) as [[e|] s1]; reflexivity.
      * rewrite in_map_iff. intros [cfg [Hn Hin]].
        apply filter_In in Hin. destruct Hin as [_ Hne].
        rewrite <- Hn, String.eqb_refl in Hne. discriminate Hne.
      * unfold bind. destruct (SaveConfigs rt os _ s) as [[e|] s1]; reflexivity.
    + assert (~ In name (map Name current)) as NI.
      { intros Hin. apply existsb_name in Hin. congruence. }
      repeat split; intros; try congruence; contradiction.
Qed.

End Registry.

(** ** The launch command *)

Section LaunchCommand.

Import Config Chrome.

Variable rt : Runtime.

(** Whatever the platform, the arguments of a launch command end with
    the two suppression flags. *)
Lemma launchCommand_suppression_flags (dir name : string) (args : list string) :
  launchCommand rt dir = Ok (name, args) ->
  exists front : list string, args = (front ++ commonArgs)%list
                              /\ (List.length front <= 1)%nat.
Proof.
  unfold launchCommand. intros H.
  destruct (GOOS rt =? "darwin");
    [|destruct (GOOS rt =? "windows"); [|destruct (GOOS rt =? "linux")]];
    destruct (negb (dir =? "")); try destruct (Abs rt dir);
    inversion H; subst;
    solve [ exists []; split; [reflexivity | cbn; lia]
          | eexists [_]; split; [reflexivity | cbn; lia] ].
Qed.

(** With an empty directory, as the default profile has it, there is
    no directory flag. *)
Lemma launchCommand_default_profile :
  exists name : string, launchCommand rt "" = Ok (name, commonArgs).
Proof.
  unfold launchCommand. cbn.
  destruct (GOOS rt =? "darwin");
    [|destruct (GOOS rt =? "windows"); [|destruct (GOOS rt =? "linux")]];
    eexists; reflexivity.
Qed.

(** On macOS the directory flag carries what [filepath.Abs] answers. *)
Lemma launchCommand_darwin (dir absPath : string) :
  GOOS rt = "darwin" -> dir <> "" -> Abs rt dir = Ok absPath ->
  launchCommand rt dir
  = Ok (macChrome, ("--user-data-dir=" ++ absPath) :: commonArgs).
Proof.
  intros G D A. unfold launchCommand. rewrite G. cbn.
  apply String.eqb_neq in D. rewrite D. cbn. now rewrite A.
Qed.

(** On Linux the directory flag carries the directory as configured:
    [filepath.Abs] is not consulted. *)
Lemma launchCommand_linux (dir : string) :
  GOOS rt = "linux" -> dir <> "" ->
  launchCommand rt dir
  = Ok ("google-chrome", ("--user-data-dir=" ++ dir) :: commonArgs).
Proof.
  intros G D. unfold launchCommand. rewrite G. cbn.
  apply String.eqb_neq in D. now rewrite D.
Qed.


End LaunchCommand.

(** ** The fallback that finds nothing *)

Section NothingFound.

Import Config Chrome.

Variable rt : Runtime.
Variable W : Type.
Variable os : Handler W.

(** When the discovery command prints nothing but white space, or
    exits with status 1 and no output, [chromeStop] reports that it
    found no process, after that one call. *)
Lemma chromeStop_nothing_found (dir name : string) (args : list string)
      (w w' : W) (output : string) (err : option error) :
  findCommand rt dir = Ok (name, args) ->
  os (CmdOutput name args) w = ((output, err), w') ->
  (err = None /\ TrimSpace output = "") \/ (err = Some (ExitError 1) /\ output = "") ->
  chromeStop rt os dir (freshSys w)
  = ((false, None), mkSys w' [EvOS (CmdOutput name args)]).
Proof.
  intros F O H. unfold chromeStop, freshSys, bind, call, ret. rewrite F. cbn.
  rewrite O. destruct H as [[-> T] | [-> ->]].
  - now rewrite T.
  - unfold findFailureIsNotFound. cbn. now destruct (dir =? "").
Qed.

End NothingFound.

(** ** The sample runtime keeps what it is given

    The JSON functions of the sample runtime decode what they encode,
    and the simulated file system reads back what was written: on them
    the round trip of the registry needs no assumption. *)

Section SampleCodec.

Import Config Chrome Sample.

Lemma append_assoc_s (a b c : string) : (a ++ b) ++ c = a ++ (b ++ c).
Proof. induction a; cbn; congruence. Qed.

Lemma length_append_s (a b : string) :
  String.length (a ++ b) = String.length a + String.length b.
Proof. induction a; cbn; congruence. Qed.

(** One escaped byte decodes to that byte. *)
Lemma stringBody_escapeByte (c : ascii) (x : string) :
  stringBody (escapeByte c ++ x)
  = match stringBody x with
    | Some (body, rest) => Some (String c body, rest)
    | None => None
    end.
Proof.
  destruct c as [[|] [|] [|] [|] [|] [|] [|] [|]];
    unfold escapeByte; cbn; reflexivity.
Qed.

Lemma stringBody_escape (s rest : string) :
  stringBody (escape s ++ dq ++ rest) = Some (s, rest).
Proof.
  induction s as [|c r IH]; [reflexivity|].
  cbn [escape]. now rewrite append_assoc_s, stringBody_escapeByte, IH.
Qed.

Lemma literal_quote (s rest : string) : literal (quote s ++ rest) = Some (s, rest).
Proof.
  unfold quote, literal. rewrite !append_assoc_s. cbn.
  apply stringBody_escape.
Qed.

Lemma skipWs_blank (c : ascii) (x : string) :
  blank c = true -> skipWs (String c x) = skipWs x.
Proof. cbn. now intros ->. Qed.

Lemma literal_blank (c : ascii) (x : string) :
  blank c = true -> literal (String c x) = literal x.
Proof. intros H. unfold literal. now rewrite skipWs_blank. Qed.

Lemma expect_blank (c d : ascii) (x : string) :
  blank d = true -> expect c (String d x) = expect c x.
Proof. intros H. unfold expect. now rewrite skipWs_blank. Qed.

Lemma expect_here (c d : ascii) (x : string) :
  blank d = false -> expect c (String d x) = if Ascii.eqb c d then Some x else None.
Proof. unfold expect. cbn. now intros ->. Qed.

Lemma expect_quote (c : ascii) (s x : string) :
  Ascii.eqb c (ascii_of_nat 34) = false -> expect c (quote s ++ x) = None.
Proof.
  intros H.
  change (quote s ++ x) with (String (ascii_of_nat 34) ((escape s ++ dq) ++ x)).
  rewrite expect_here by reflexivity. now rewrite H.
Qed.

Ltac parse_step :=
  first [ rewrite literal_quote
        | rewrite literal_blank by reflexivity
        | rewrite expect_blank by reflexivity
        | rewrite expect_here by reflexivity
        | rewrite expect_quote by reflexivity ];
  cbv beta iota.

Ltac parse := repeat (repeat parse_step; progress cbn -[quote literal expect]).

Lemma object_encodeObject (fuel : nat) (o : string * string) (rest : string) :
  2 <= fuel -> object fuel (nl ++ encodeObject o ++ rest) = Some (o, rest).
Proof.
  intros Hf. destruct fuel as [|[|fuel]]; try lia.
  unfold object, encodeObject. rewrite !append_assoc_s.
  cbn -[quote literal expect]. parse. repeat parse_step.
  now destruct o.
Qed.

Lemma elements_S (fuel : nat) (s : string) :
  elements (S fuel) s
  = match object fuel s with
    | None => None
    | Some (o, s1) =>
        match expect "," s1 with
        | Some s2 =>
            match elements fuel s2 with
            | Some (l, rest) => Some (o :: l, rest)
            | None => None
            end
        | None =>
            match expect "]" s1 with
            | Some s2 => Some ([o], s2)
            | None => None
            end
        end
    end.
Proof. reflexivity. Qed.

Lemma concat_two (sep a b : string) (l : list string) :
  String.concat sep (a :: b :: l) = a ++ sep ++ String.concat sep (b :: l).
Proof. reflexivity. Qed.

Lemma expect_separator (x : string) :
  expect "," (separator ++ x) = Some (nl ++ x).
Proof. reflexivity. Qed.

Lemma expect_closing (rest : string) :
  expect "," (nl ++ "]" ++ rest) = None
  /\ expect "]" (nl ++ "]" ++ rest) = Some rest.
Proof. split; reflexivity. Qed.

Lemma expect_opening (x : string) : expect "[" ("[" ++ x) = Some x.
Proof. reflexivity. Qed.

Lemma expect_no_closing (o : string * string) (x : string) :
  expect "]" (nl ++ encodeObject o ++ x) = None.
Proof. reflexivity. Qed.

Lemma elements_encoded (l' : list (string * string)) :
  forall (o : string * string) (fuel : nat) (rest : string),
    List.length l' + 3 <= fuel ->
    elements fuel (nl ++ String.concat separator (map encodeObject (o :: l'))
                      ++ nl ++ "]" ++ rest)
    = Some (o :: l', rest).
Proof.
  induction l' as [|o' l'' IH]; intros o fuel rest Hf;
    (destruct fuel as [|fuel]; [cbn in Hf; lia|]); rewrite elements_S.
  - cbn [map String.concat]. rewrite object_encodeObject by (cbn in Hf; lia).
    destruct (expect_closing rest) as [-> ->]. reflexivity.
  - cbn [map]. rewrite concat_two, !append_assoc_s.
    rewrite object_encodeObject by (cbn in Hf; lia).
    rewrite expect_separator.
    change (encodeObject o' :: map encodeObject l'')
      with (map encodeObject (o' :: l'')).
    rewrite IH; [reflexivity|]. cbn in *. lia.
Qed.

Lemma length_encodeObject (o : string * string) :
  1 <= String.length (encodeObject o).
Proof.
  unfold encodeObject. rewrite length_append_s. cbn [String.length]. lia.
Qed.

Lemma length_encoded (l : list (string * string)) :
  List.length l <= String.length (String.concat separator (map encodeObject l)).
Proof.
  induction l as [|o l' IH]; [cbn; lia|].
  destruct l' as [|o' l''].
  - cbn [map String.concat List.length]. apply length_encodeObject.
  - cbn [map]. rewrite concat_two, !length_append_s.
    cbn [map] in IH. pose proof (length_encodeObject o).
    cbn [List.length] in *. lia.
Qed.

(** The JSON functions of the sample runtime: decoding undoes
    encoding, for every list of name/directory pairs. *)
Theorem sample_json_round_trip (l : list (string * string)) :
  exists data : string,
    sampleMarshalIndent l = Ok data /\ sampleUnmarshal data = Ok l.
Proof.
  destruct l as [|o l']; [exists "[]"; split; reflexivity|].
  eexists. split; [reflexivity|].
  unfold sampleUnmarshal. rewrite expect_opening.
  set (body := String.concat separator (map encodeObject (o :: l'))).
  assert (E : expect "]" (nl ++ body ++ nl ++ "]") = None).
  { subst body. destruct l' as [|o' l''].
    - cbn [map String.concat]. apply expect_no_closing.
    - cbn [map]. rewrite concat_two, !append_assoc_s. apply expect_no_closing. }
  rewrite E.
  replace (nl ++ body ++ nl ++ "]") with (nl ++ body ++ nl ++ "]" ++ "")
    by reflexivity.
  subst body. rewrite elements_encoded; [reflexivity|].
  cbn [String.length append]. rewrite !length_append_s.
  pose proof (length_encoded (o :: l')). cbn [List.length] in *. lia.
Qed.

(** On a Unix runtime and the simulated world, whatever the platform
    name, the home and the working directory, the state of the world
    and the list: when [SaveConfigs] accepts the list, [LoadConfigs]
    called next returns the sentinel followed by the entries of the list
    that are not flagged default. *)
Theorem sample_Save_then_Load (goos : string) (home wd : result string)
        (s s1 : Sys World) (cfgs : list ChromeConfig) :
  SaveConfigs (unixRuntime goos home wd) simulate cfgs s = (None, s1) ->
  fst (LoadConfigs (unixRuntime goos home wd) simulate s1)
  = defaultInstance :: userProfiles cfgs.
Proof.
  set (rt := unixRuntime goos home wd).
  unfold SaveConfigs, LoadConfigs.
  destruct (userConfigsToSave rt cfgs) as [userConfigs|e] eqn:U;
    [|unfold ret; intros H; inversion H].
  destruct (@userConfigsToSave_ok rt cfgs userConfigs U) as [Hl Hall].
  subst userConfigs.
  destruct (sample_json_round_trip (map toJSON (userProfiles cfgs)))
    as (data & Hmar & Hdec).
  change (MarshalIndent rt) with sampleMarshalIndent.
  change (Unmarshal rt) with sampleUnmarshal.
  rewrite Hmar.
  set (path := configFile rt). set (dir := Dir rt path).
  unfold bind, call, ret. cbn.
  destruct (writable (world s)) eqn:Wr; [|intros H; inversion H].
  intros H; inversion H; subst. cbn.
  rewrite String.eqb_refl. cbn. rewrite Hdec. cbn.
  now rewrite validUserConfigs_persistable.
Qed.

End SampleCodec.

(** ** Runs on the simulated world *)

Section Runs.

Import Config Chrome Sample Scenario.

(** C1 does not hold as the specification states it.
    A browser without a directory
    argument is seen at construction, so the default instance is
    marked running and holds no command object; the browser is gone
    when [Stop] is called, the fallback finds no process, and [Stop]
    returns an error. *)
Lemma Stop_external_nothing_found_counterexample :
  fst (NewInstance linux simulate defaultInstance (freshSys browserSeen))
  = observed defaultInstance
  /\ fst (chromeStop linux simulate "" (freshSys quiet)) = (false, None)
  /\ fst (Stop linux simulate (freshISt quiet (observed defaultInstance)))
     = Some (StopNotFound DefaultChromeConfigName "")
  /\ fst (Stop linux simulate (freshISt quiet (observed defaultInstance))) <> None.
Proof. repeat split; try (vm_compute; reflexivity). vm_compute. discriminate. Qed.

Lemma Stop_external_nothing_found_witness :
  ownedProcess None = None
  /\ fst (Stop linux simulate (freshISt quiet (observed defaultInstance)))
     = Some (StopNotFound DefaultChromeConfigName "")
  /\ isRunning (self (snd (Stop linux simulate
                             (freshISt quiet (observed defaultInstance))))) = true.
Proof.
  split; [reflexivity|].
  pose proof (@Stop_external_nothing_found_errors linux World simulate quiet
                defaultInstance None eq_refl) as H.
  cbv zeta in H. destruct H as (_ & _ & H).
  destruct H as (H1 & _ & _ & H2); [vm_compute; reflexivity|].
  split; [exact H1 | exact H2].
Defined.

(** C2, at a directory given relative to the working directory.  On
    Linux [Start] hands the directory to the browser as configured,
    which is not an absolute path; on macOS the same profile is
    started with the absolute path; the process matcher of Linux looks
    for the absolute path, which the command line of the process just
    started does not contain; and [AddConfig] accepts such a directory
    and stores it as given. *)
Theorem Start_relative_directory_not_made_absolute :
  let out := Start linux simulate (freshISt quiet (stopped play)) in
  fst out = None
  /\ osCalls (log (sys (snd out)))
     = [EvOS (CmdStart "google-chrome"
                ["--user-data-dir=profiles/play"; "--no-first-run";
                 "--no-default-browser-check"])]
  /\ IsAbs linux "profiles/play" = false
  /\ launchCommand darwin (UserDataDir play)
     = Ok (macChrome, ["--user-data-dir=/work/profiles/play"; "--no-first-run";
                       "--no-default-browser-check"])
  /\ findCommand linux (UserDataDir play)
     = Ok ("pgrep", ["-f"; "chrome.*--user-data-dir=/work/profiles/play"])
  /\ fst (AddConfig linux simulate "play" "profiles/play" [defaultInstance]
            (freshSys quiet))
     = ([defaultInstance; play], None).
Proof. repeat split; vm_compute; reflexivity. Qed.

(** C3 does not hold as the specification states it.
    The owned process 100 is gone, so
    the signal is not delivered; the fallback finds process 200 on the
    directory of the profile but may not signal it; [Stop] returns an
    error although the fallback found a process. *)
Lemma Stop_owned_fallback_kill_denied :
  let out := Stop linux simulate (freshISt foreignProcess (launched work 100)) in
  fst (simulate (CmdOutput "pgrep" ["-f"; "chrome.*--user-data-dir=/profiles/work"])
                foreignProcess)
  = ("200" ++ nl, None)
  /\ fst (chromeStop linux simulate (UserDataDir work) (freshSys foreignProcess))
     = (false, Some (KillFailed 200 (SysError "operation not permitted")))
  /\ fst out
     = Some (StopSignalAndFallbackFailed "work" ESRCH
               (KillFailed 200 (SysError "operation not permitted")))
  /\ osCalls (log (sys (snd out)))
     = [EvOS (ProcessSignal {| Pid := 100 |} SIGTERM);
        EvOS (CmdOutput "pgrep" ["-f"; "chrome.*--user-data-dir=/profiles/work"]);
        EvOS (FindProcess 200);
        EvOS (ProcessSignal {| Pid := 200 |} SIGTERM)].
Proof. repeat split; vm_compute; reflexivity. Qed.

Lemma Stop_owned_signal_then_fallback_witness :
  let out := Stop linux simulate (freshISt foreignProcess (launched work 100)) in
  ownedProcess (cmd (launched work 100)) = Some {| Pid := 100 |}
  /\ hd_error (osCalls (log (sys (snd out))))
     = Some (EvOS (ProcessSignal {| Pid := 100 |} SIGTERM))
  /\ self (snd out) = launched work 100
  /\ isRunning (self (snd out)) = true.
Proof.
  cbv zeta. split; [reflexivity|].
  pose proof (@Stop_owned_signal_then_fallback linux World simulate
                foreignProcess work
                {| Path := "google-chrome";
                   Args := ["--user-data-dir=" ++ UserDataDir work;
                            "--no-first-run"; "--no-default-browser-check"];
                   CmdProcess := Some {| Pid := 100 |}; CmdProcessState := None |}
                {| Pid := 100 |} eq_refl) as H.
  cbv zeta in H. destruct H as (Hfirst & _ & _ & Herr).
  split; [exact Hfirst|].
  destruct (Herr (StopSignalAndFallbackFailed "work" ESRCH
                    (KillFailed 200 (SysError "operation not permitted"))))
    as (_ & Hself & Hrun); [vm_compute; reflexivity|].
  split; [exact Hself | exact Hrun].
Defined.

Lemma Start_error_keeps_state_witness :
  Start linux simulate (mkISt (freshSys noSpawn) (stopped work))
  = (Some (StartFailed "work" "/profiles/work"
             (SysError "executable file not found in $PATH")),
     snd (Start linux simulate (mkISt (freshSys noSpawn) (stopped work))))
  /\ self (snd (Start linux simulate (mkISt (freshSys noSpawn) (stopped work))))
     = stopped work.
Proof.
  assert (Hrun :
    Start linux simulate (mkISt (freshSys noSpawn) (stopped work))
    = (Some (StartFailed "work" "/profiles/work"
               (SysError "executable file not found in $PATH")),
       snd (Start linux simulate (mkISt (freshSys noSpawn) (stopped work)))))
    by (vm_compute; reflexivity).
  split; [exact Hrun|].
  exact (proj1 (@Start_error_keeps_state linux World simulate _ _ _ _ Hrun)).
Defined.

(** C5 does not hold as the specification states it.
    The instance is stopped, the
    operating system cannot start the executable: [Start] returns a
    launch error and [IsRunning] called next answers false. *)
Lemma Start_stopped_spawn_fails :
  let out := Start linux simulate (freshISt noSpawn (stopped work)) in
  isRunning (stopped work) = false
  /\ fst out = Some (StartFailed "work" "/profiles/work"
                       (SysError "executable file not found in $PATH"))
  /\ fst out <> None
  /\ fst (IsRunning (snd out)) = false.
Proof. repeat split; try (vm_compute; reflexivity). vm_compute. discriminate. Qed.

Lemma Start_then_IsRunning_witness :
  isRunning (stopped work) = false
  /\ fst (Start linux simulate (freshISt quiet (stopped work))) = None
  /\ fst (IsRunning (snd (Start linux simulate (freshISt quiet (stopped work)))))
     = true.
Proof.
  split; [reflexivity|].
  pose proof (@Start_then_IsRunning linux World simulate quiet (stopped work)) as H.
  cbv zeta in H. destruct H as (_ & _ & _ & H).
  destruct (H eq_refl "google-chrome"
              ["--user-data-dir=/profiles/work"; "--no-first-run";
               "--no-default-browser-check"]
              {| Pid := 100 |}
              (snd (simulate (CmdStart "google-chrome" []) quiet))
              eq_refl eq_refl) as (H1 & _ & _ & H2).
  split; [exact H1 | exact H2].
Defined.


Lemma Add_default_directory_rejected_witness :
  GetDefaultUserDataDir linux <> ""
  /\ Abs linux "../home/u/.config/Google-Chrome/" = Ok "/home/u/.config/Google-Chrome"
  /\ exists e : error,
       AddConfig linux simulate "mine" "../home/u/.config/Google-Chrome/"
                 [defaultInstance; work] (freshSys quiet)
       = (([defaultInstance; work], Some e), freshSys quiet)
       /\ kindOf e = ValidationError.
Proof.
  assert (Hd : GetDefaultUserDataDir linux <> "") by (vm_compute; discriminate).
  split; [exact Hd|]. split; [vm_compute; reflexivity|].
  apply (@Add_default_directory_rejected linux World simulate (freshSys quiet)
           "mine" "../home/u/.config/Google-Chrome/" [defaultInstance; work]
           "/home/u/.config/Google-Chrome" "/home/u/.config/google-chrome" Hd);
    vm_compute; reflexivity.
Defined.

(** C9 does not hold as the specification states it.
    The name is not reserved and the
    list holds it, but the configuration file cannot be written:
    [RemoveConfig] returns the list it was given, with the entry still
    in it, and the file is what it was. *)
Lemma Remove_save_fails_keeps_entry :
  let out := RemoveConfig linux simulate "work" [defaultInstance; work; play]
                          (freshSys readOnly) in
  "work" <> DefaultChromeConfigName
  /\ In "work" (map Name [defaultInstance; work; play])
  /\ fst out = ([defaultInstance; work; play],
                Some (RemoveSaveFailed (SysError "permission denied")))
  /\ In work (fst (fst out))
  /\ files (world (snd out)) = files readOnly.
Proof.
  repeat split; try (vm_compute; reflexivity).
  - vm_compute. discriminate.
  - vm_compute. auto.
  - vm_compute. auto.
Qed.

Lemma Remove_outcomes_witness :
  "work" <> DefaultChromeConfigName
  /\ In "work" (map Name [defaultInstance; work; play])
  /\ fst (RemoveConfig linux simulate "work" [defaultInstance; work; play]
            (freshSys quiet))
     = ([defaultInstance; play], None).
Proof.
  assert (Hn : "work" <> DefaultChromeConfigName) by (vm_compute; discriminate).
  assert (Hin : In "work" (map Name [defaultInstance; work; play]))
    by (vm_compute; auto).
  split; [exact Hn|]. split; [exact Hin|].
  pose proof (@Remove_outcomes linux World simulate (freshSys quiet) "work"
                [defaultInstance; work; play]) as H.
  cbv zeta in H. destruct H as (_ & _ & H).
  destruct (H Hn Hin) as (_ & _ & Hout).
  vm_compute in Hout. vm_compute. exact Hout.
Defined.

End Runs.

(** ** The string functions and the sample runtime, on examples *)

Section Examples.

Import Config Chrome Sample.

Example TrimSpace_pids : TrimSpace (" 4242" ++ nl) = "4242".
Proof. reflexivity. Qed.

Example TrimSpace_unicode_spaces :
  TrimSpace (bytes [194; 160; 97; 226; 128; 168]) = "a".
Proof. reflexivity. Qed.

Example Split_lines : Split ("12" ++ nl ++ "34") newline = ["12"; "34"].
Proof. reflexivity. Qed.

Example Split_empty : Split "" "," = [""].
Proof. reflexivity. Qed.

Example Atoi_examples :
  Atoi "4242" = Some 4242%Z /\ Atoi "-7" = Some (-7)%Z /\ Atoi "" = None
  /\ Atoi "12a" = None /\ Atoi "9223372036854775808" = None.
Proof. repeat split; reflexivity. Qed.

Example Itoa_example : Itoa 4242 = "4242".
Proof. reflexivity. Qed.

Example Clean_examples :
  Clean "/a/b/../c//d/./" = "/a/c/d" /\ Clean "a/../.." = ".."
  /\ Clean "" = "." /\ Clean "/.." = "/".
Proof. repeat split; reflexivity. Qed.

Example configFile_linux : configFile linux = "/home/u/.config/chromes/configs.json".
Proof. reflexivity. Qed.

Example DefaultChromeConfigName_bytes : String.length DefaultChromeConfigName = 14.
Proof. reflexivity. Qed.

Example json_escapes_round_trip :
  match sampleMarshalIndent [("a<b", "C:\dir" ++ dq ++ nl)] with
  | Ok data => sampleUnmarshal data
  | Err e => Err e
  end = Ok [("a<b", "C:\dir" ++ dq ++ nl)].
Proof. vm_compute. reflexivity. Qed.

End Examples.

(** * Further properties of the code *)

(** ** The registry: loading and saving *)

Section RegistryLoadSave.

Import Config.

Variable rt : Runtime.
Variable W : Type.
Variable os : Handler W.

Lemma persistable_dec (cfg : ChromeConfig) :
  {persistable rt cfg} + {~ persistable rt cfg}.
Proof.
  unfold persistable.
  destruct (IsDefault cfg); [right; intros [H _]; discriminate H|].
  destruct (string_dec (Name cfg) DefaultChromeConfigName) as [N|N];
    [right; intros (_ & H & _); contradiction|].
  destruct (string_dec (UserDataDir cfg) "") as [E|E];
    [right; intros (_ & _ & H & _); contradiction|].
  destruct (usesDefaultDir rt (UserDataDir cfg)) eqn:U;
    [right; intros (_ & _ & _ & H); discriminate H|].
  left. repeat split; assumption.
Qed.

(** The loop of [LoadConfigs] lets only persistable entries through. *)
Lemma validUserConfigs_Forall (l : list ChromeConfig) :
  Forall (persistable rt) (validUserConfigs rt l).
Proof.
  induction l as [|cfg rest IH]; cbn; [constructor|].
  destruct (Name cfg =? DefaultChromeConfigName) eqn:N; [exact IH|].
  destruct (usesDefaultDir rt (UserDataDir cfg)) eqn:U; [exact IH|].
  destruct (UserDataDir cfg =? "") eqn:E; [exact IH|].
  constructor; [|exact IH].
  repeat split; cbn; auto; now apply String.eqb_neq.
Qed.

(** The loop of [SaveConfigs] accepts a list whose entries not flagged
    default are all persistable. *)
Lemma userConfigsToSave_accepts (cfgs : list ChromeConfig) :
  Forall (persistable rt) (userProfiles cfgs) ->
  userConfigsToSave rt cfgs = Ok (userProfiles cfgs).
Proof.
  induction cfgs as [|cfg rest IH]; cbn; [reflexivity|].
  destruct (IsDefault cfg) eqn:D; cbn; [exact IH|].
  intros H. inversion H as [|x l (_ & N & E & U) Hrest]; subst.
  apply String.eqb_neq in N. apply String.eqb_neq in E.
  now rewrite N, E, U, (IH Hrest).
Qed.

(** And refuses any other, with a validation error. *)
Lemma userConfigsToSave_refuses (cfgs : list ChromeConfig) :
  ~ Forall (persistable rt) (userProfiles cfgs) ->
  exists e : error,
    userConfigsToSave rt cfgs = Err e /\ kindOf e = ValidationError.
Proof.
  induction cfgs as [|cfg rest IH]; cbn; intros H.
  - exfalso. apply H. constructor.
  - destruct (IsDefault cfg) eqn:D; cbn in *; [now apply IH|].
    destruct (Name cfg =? DefaultChromeConfigName) eqn:N; [eexists; split; reflexivity|].
    destruct (UserDataDir cfg =? "") eqn:E; [eexists; split; reflexivity|].
    destruct (usesDefaultDir rt (UserDataDir cfg)) eqn:U; [eexists; split; reflexivity|].
    destruct IH as (e & He & Hk).
    + intros Hrest. apply H. constructor; [|exact Hrest].
      repeat split; auto; now apply String.eqb_neq.
    + exists e. now rewrite He.
Qed.

Lemma LoadConfigs_cases (s : Sys W) :
  let out := LoadConfigs rt os s in
  exists users : list ChromeConfig,
    fst out = defaultInstance :: users
    /\ Forall (persistable rt) users
    /\ userProfiles (fst out) = users
    /\ log (snd out) = (log s ++ [EvOS (ReadFile (configFile rt))])%list
    /\ world (snd out) = snd (os (ReadFile (configFile rt)) (world s)).
Proof.
  unfold LoadConfigs, bind, call, ret. cbn.
  destruct (@os _ (ReadFile (configFile rt)) (world s)) as [[data|e] w1]; cbn.
  - destruct (Unmarshal rt data) as [userConfigs|e]; cbn.
    + exists (validUserConfigs rt (map ofJSON userConfigs)).
      pose proof (validUserConfigs_Forall (map ofJSON userConfigs)) as V.
      repeat split; auto.
      unfold userProfiles. cbn. apply forallb_filter_id.
      apply forallb_forall. intros cfg Hin. rewrite Forall_forall in V.
      destruct (V cfg Hin) as [D _]. now rewrite D.
    + exists []. repeat split; constructor.
  - exists []. repeat split; constructor.
Qed.


(** When the configuration file cannot be read, or does not decode,
    [LoadConfigs] returns the sentinel alone. *)
Theorem LoadConfigs_without_file (s : Sys W) :
  (exists e, fst (os (ReadFile (configFile rt)) (world s)) = Err e)
  \/ (exists data e, fst (os (ReadFile (configFile rt)) (world s)) = Ok data
                     /\ Unmarshal rt data = Err e) ->
  fst (LoadConfigs rt os s) = [defaultInstance].
Proof.
  unfold LoadConfigs, bind, call, ret.
  destruct (@os _ (ReadFile (configFile rt)) (world s)) as [r w1]; cbn.
  intros [[e ->] | (data & e & -> & U)]; [reflexivity|].
  now rewrite U.
Qed.

(** What [LoadConfigs] returned passes the validation of [SaveConfigs],
    which then writes the entries after the sentinel, all of them. *)
Theorem Load_result_passes_Save_validation (s : Sys W) :
  userConfigsToSave rt (fst (LoadConfigs rt os s))
  = Ok (tl (fst (LoadConfigs rt os s))).
Proof.
  destruct (LoadConfigs_cases s) as (users & Hout & Hall & Hu & _).
  rewrite userConfigsToSave_accepts; rewrite Hu; [|assumption].
  now rewrite Hout.
Qed.

(** [SaveConfigs] validates every entry before it touches the disk:
    when an entry not flagged default has the reserved name, an empty
    directory or the default directory of the browser, it returns a
    validation error and calls nothing. *)
Theorem SaveConfigs_refusal_writes_nothing (s : Sys W) (cfgs : list ChromeConfig) :
  ~ Forall (persistable rt) (userProfiles cfgs) ->
  exists e : error,
    SaveConfigs rt os cfgs s = (Some e, s) /\ kindOf e = ValidationError.
Proof.
  intros H. destruct (userConfigsToSave_refuses _ H) as (e & He & Hk).
  exists e. unfold SaveConfigs. rewrite He. split; [reflexivity | exact Hk].
Qed.

(** The calls of [SaveConfigs], in all: none; or [MkdirAll] on the
    directory of the configuration file, which failed; or that
    [MkdirAll] followed by one [WriteFile] of the encoded entries not
    flagged default to the configuration file, whose outcome it
    returns.  It never reads. *)
Theorem SaveConfigs_calls (s : Sys W) (cfgs : list ChromeConfig) :
  let out := SaveConfigs rt os cfgs s in
  let mkdir := EvOS (MkdirAll (Dir rt (configFile rt)) 488) in
  (snd out = s /\ fst out <> None)
  \/ (log (snd out) = (log s ++ [mkdir])%list
      /\ fst out = fst (os (MkdirAll (Dir rt (configFile rt)) 488) (world s))
      /\ fst out <> None)
  \/ (exists data : string,
        MarshalIndent rt (map toJSON (userProfiles cfgs)) = Ok data
        /\ log (snd out)
           = (log s ++ [mkdir; EvOS (WriteFile (configFile rt) data 416)])%list
        /\ fst out
           = fst (os (WriteFile (configFile rt) data 416)
                     (snd (os (MkdirAll (Dir rt (configFile rt)) 488) (world s))))).
Proof.
  unfold SaveConfigs.
  destruct (userConfigsToSave rt cfgs) as [userConfigs|e] eqn:U;
    [|left; split; [reflexivity | discriminate]].
  destruct (@userConfigsToSave_ok rt cfgs userConfigs U) as [-> _].
  destruct (MarshalIndent rt (map toJSON (userProfiles cfgs))) as [data|e] eqn:Mar;
    [|left; split; [reflexivity | discriminate]].
  unfold bind, call, ret.
  destruct (@os _ (MkdirAll (Dir rt (configFile rt)) 488) (world s))
    as [[e|] w1] eqn:Mk; cbn.
  - right. left. repeat split. discriminate.
  - right. right. exists data.
    destruct (@os _ (WriteFile (configFile rt) data 416) w1) as [r w2]. cbn.
    repeat split. now rewrite <- app_assoc.
Qed.

(** When the platform is none of the three the code knows, or the home
    directory cannot be found on macOS or Linux, the default directory
    of the browser is unknown and no directory is refused for being
    it. *)
Theorem default_directory_unknown (dir : string) :
  ((GOOS rt =? "windows") || (GOOS rt =? "darwin") || (GOOS rt =? "linux") = false)
  \/ ((GOOS rt =? "windows") = false /\ exists e, UserHomeDir rt = Err e) ->
  GetDefaultUserDataDir rt = "" /\ usesDefaultDir rt dir = false.
Proof.
  intros H.
  assert (G : GetDefaultUserDataDir rt = "").
  { unfold GetDefaultUserDataDir. destruct H as [H | [Hw [e He]]].
    - apply orb_false_iff in H. destruct H as [H Hl].
      apply orb_false_iff in H. destruct H as [Hw Hd].
      now rewrite Hw, Hd, Hl.
    - rewrite Hw, He.
      destruct (GOOS rt =? "darwin"); [reflexivity|].
      destruct (GOOS rt =? "linux"); reflexivity. }
  split; [exact G|]. unfold usesDefaultDir. now rewrite G.
Qed.

End RegistryLoadSave.

(** ** The registry: adding and removing *)

Section RegistryAddRemove.

Import Config.

Variable rt : Runtime.
Variable W : Type.
Variable os : Handler W.

Lemma filter_none (A : Type) (f : A -> bool) (l : list A) :
  (forall x, In x l -> f x = false) -> filter f l = [].
Proof.
  induction l as [|x rest IH]; cbn; [reflexivity|]. intros H.
  rewrite (H x (or_introl eq_refl)). apply IH. intros y Hy. apply H. now right.
Qed.

Lemma userProfiles_app (l1 l2 : list ChromeConfig) :
  userProfiles (l1 ++ l2) = (userProfiles l1 ++ userProfiles l2)%list.
Proof. apply filter_app. Qed.

(** The collision loop of [AddConfig] finds nothing only when no entry
    not flagged default has the name or the directory. *)
Lemma collision_none (name dir : string) (current : list ChromeConfig) :
  collision rt name dir (Abs rt dir) current = None ->
  ~ In name (map Name (userProfiles current))
  /\ Forall (fun cfg => ~ sameDir rt (UserDataDir cfg) dir) (userProfiles current).
Proof.
  remember (Abs rt dir) as absNew eqn:B.
  induction current as [|cfg rest IH]; cbn; [intros _; split; [tauto | constructor]|].
  destruct (IsDefault cfg) eqn:D; cbn; [exact IH|].
  destruct (Name cfg =? name) eqn:N; [discriminate|].
  apply String.eqb_neq in N.
  assert (K : collision rt name dir absNew rest = None ->
              ~ sameDir rt (UserDataDir cfg) dir ->
              ~ (Name cfg = name \/ In name (map Name (userProfiles rest)))
              /\ Forall (fun c => ~ sameDir rt (UserDataDir c) dir)
                        (cfg :: userProfiles rest)).
  { intros H Hs. destruct (IH H) as [Hn Hd].
    split; [intros [Heq|Hin]; [contradiction | now apply Hn]|].
    constructor; assumption. }
  destruct (Abs rt (UserDataDir cfg)) as [a|ea] eqn:A; destruct absNew as [b|eb].
  - destruct (EqualFold rt a b) eqn:F; [discriminate|].
    intros H. apply K; [exact H|].
    intros (a1 & a2 & H1 & H2 & H3). congruence.
  - intros H. apply K; [exact H|].
    intros (a1 & a2 & H1 & H2 & H3). congruence.
  - intros H. apply K; [exact H|].
    intros (a1 & a2 & H1 & H2 & H3). congruence.
  - intros H. apply K; [exact H|].
    intros (a1 & a2 & H1 & H2 & H3). congruence.
Qed.

(** And finds one as soon as such an entry exists. *)
Lemma collision_some (name dir : string) (current : list ChromeConfig)
      (cfg : ChromeConfig) :
  In cfg current -> IsDefault cfg = false ->
  Name cfg = name \/ sameDir rt (UserDataDir cfg) dir ->
  exists e : error,
    collision rt name dir (Abs rt dir) current = Some e
    /\ kindOf e = ValidationError.
Proof.
  intros Hin D Hc. remember (Abs rt dir) as absNew eqn:B.
  induction current as [|c rest IH]; [contradiction|]. cbn.
  destruct (IsDefault c) eqn:Dc.
  - destruct Hin as [->|Hin]; [congruence | now apply IH].
  - destruct (Name c =? name) eqn:N; [eexists; split; reflexivity|].
    apply String.eqb_neq in N.
    assert (K : ~ sameDir rt (UserDataDir c) dir ->
                exists e : error,
                  collision rt name dir absNew rest = Some e
                  /\ kindOf e = ValidationError).
    { intros Hs. destruct Hin as [->|Hin]; [|now apply IH].
      destruct Hc as [Hc|Hc]; contradiction. }
    destruct (Abs rt (UserDataDir c)) as [a|ea] eqn:A; destruct absNew as [b|eb].
    + destruct (EqualFold rt a b) eqn:F; [eexists; split; reflexivity|].
      apply K. intros (a1 & a2 & H1 & H2 & H3). congruence.
    + apply K. intros (a1 & a2 & H1 & H2 & H3). congruence.
    + apply K. intros (a1 & a2 & H1 & H2 & H3). congruence.
    + apply K. intros (a1 & a2 & H1 & H2 & H3). congruence.
Qed.

(** [AddConfig] is all or nothing.  Either it returns no error and the
    list it was given with one entry added at the end, carrying the
    name and the directory exactly as given and not flagged default,
    after [SaveConfigs] accepted and wrote that list; or it returns an
    error and the list it was given. *)
Theorem AddConfig_all_or_nothing (s : Sys W) (name dir : string)
        (current : list ChromeConfig) :
  let out := AddConfig rt os name dir current s in
  let added :=
    (current ++ [{| Name := name; UserDataDir := dir; IsDefault := false |}])%list in
  (fst out = (added, None) /\ SaveConfigs rt os added s = (None, snd out))
  \/ (exists e : error,
        fst out = (current, Some e)
        /\ (snd out = s \/ snd out = snd (SaveConfigs rt os added s))).
Proof.
  cbv zeta. unfold AddConfig.
  destruct (name =? DefaultChromeConfigName); [right; eexists; split; [reflexivity | left; reflexivity]|].
  destruct (TrimSpace dir =? ""); [right; eexists; split; [reflexivity | left; reflexivity]|].
  destruct (usesDefaultDir rt dir); [right; eexists; split; [reflexivity | left; reflexivity]|].
  destruct (collision rt name dir (Abs rt dir) current);
    [right; eexists; split; [reflexivity | left; reflexivity]|].
  unfold bind.
  destruct (SaveConfigs rt os _ s) as [[e|] s1]; cbn.
  - right. eexists. split; [reflexivity | right; reflexivity].
  - left. split; reflexivity.
Qed.

(** [AddConfig] refuses a name or a directory already taken: when an
    entry not flagged default has the name, or a directory with the
    same absolute path, letter case aside, it returns a validation
    error and the list it was given, and calls nothing. *)
Theorem AddConfig_rejects_duplicates (s : Sys W) (name dir : string)
        (current : list ChromeConfig) (cfg : ChromeConfig) :
  In cfg current -> IsDefault cfg = false ->
  Name cfg = name \/ sameDir rt (UserDataDir cfg) dir ->
  exists e : error,
    AddConfig rt os name dir current s = ((current, Some e), s)
    /\ kindOf e = ValidationError.
Proof.
  intros Hin D Hc. unfold AddConfig.
  destruct (name =? DefaultChromeConfigName); [eexists; split; reflexivity|].
  destruct (TrimSpace dir =? ""); [eexists; split; reflexivity|].
  destruct (usesDefaultDir rt dir); [eexists; split; reflexivity|].
  destruct (@collision_some name dir current cfg Hin D Hc) as (e & -> & Hk).
  exists e. split; [reflexivity | exact Hk].
Qed.

Lemma AddConfig_success (s s1 : Sys W) (name dir : string)
      (current updated : list ChromeConfig) :
  AddConfig rt os name dir current s = ((updated, None), s1) ->
  name <> DefaultChromeConfigName
  /\ collision rt name dir (Abs rt dir) current = None
  /\ updated
     = (current ++ [{| Name := name; UserDataDir := dir; IsDefault := false |}])%list
  /\ SaveConfigs rt os updated s = (None, s1).
Proof.
  unfold AddConfig.
  destruct (name =? DefaultChromeConfigName) eqn:N; [intros H; inversion H|].
  destruct (TrimSpace dir =? ""); [intros H; inversion H|].
  destruct (usesDefaultDir rt dir); [intros H; inversion H|].
  destruct (collision rt name dir (Abs rt dir) current); [intros H; inversion H|].
  unfold bind.
  destruct (SaveConfigs rt os _ s) as [[e|] s2] eqn:Sv; cbn;
    intros H; inversion H; subst.
  apply String.eqb_neq in N. repeat split; auto.
Qed.

Lemma SaveConfigs_success_persistable (s s1 : Sys W) (cfgs : list ChromeConfig) :
  SaveConfigs rt os cfgs s = (None, s1) ->
  Forall (persistable rt) (userProfiles cfgs).
Proof.
  unfold SaveConfigs.
  destruct (userConfigsToSave rt cfgs) as [userConfigs|e] eqn:U;
    [|intros H; inversion H].
  intros _. destruct (@userConfigsToSave_ok rt cfgs userConfigs U) as [-> H].
  exact H.
Qed.

Lemma dirsDistinct_snoc (l : list ChromeConfig) (cfg : ChromeConfig) :
  dirsDistinct rt l ->
  Forall (fun c => ~ sameDir rt (UserDataDir c) (UserDataDir cfg)) l ->
  dirsDistinct rt (l ++ [cfg]).
Proof.
  induction l as [|c rest IH]; cbn; [intros _ _; split; constructor|].
  intros [Hc Hrest] Hall. inversion Hall; subst.
  split; [|now apply IH].
  apply Forall_app. split; [assumption | constructor; [assumption | constructor]].
Qed.

(** [AddConfig] keeps the registry well formed.  When the entries not
    flagged default have pairwise different names and no entry has the
    directory of an earlier one, the same holds of the list a
    successful [AddConfig] returns, and every such entry of it is
    persistable. *)
Theorem AddConfig_keeps_registry_well_formed (s s1 : Sys W) (name dir : string)
        (current updated : list ChromeConfig) :
  AddConfig rt os name dir current s = ((updated, None), s1) ->
  NoDup (map Name (userProfiles current)) ->
  dirsDistinct rt (userProfiles current) ->
  NoDup (map Name (userProfiles updated))
  /\ dirsDistinct rt (userProfiles updated)
  /\ Forall (persistable rt) (userProfiles updated).
Proof.
  intros H Hn Hd.
  destruct (@AddConfig_success s s1 name dir current updated H) as (_ & Hc & -> & Hs).
  destruct (@collision_none name dir current Hc) as [Hname Hdir].
  pose proof (@SaveConfigs_success_persistable s s1 _ Hs) as Hp.
  rewrite userProfiles_app in *. cbn in *.
  repeat split.
  - rewrite map_app. cbn. apply NoDup_app.
    + assumption.
    + repeat constructor. tauto.
    + intros x Hx [<-|[]]. now apply Hname.
  - apply dirsDistinct_snoc; assumption.
  - exact Hp.
Qed.

(** What [LoadConfigs] returns when the configuration file decodes to
    persistable entries. *)
Lemma Load_of_decoded (s : Sys W) (entries : list ChromeConfig) :
  fileDecodesTo rt os s entries -> Forall (persistable rt) entries ->
  fst (LoadConfigs rt os s) = defaultInstance :: entries.
Proof.
  intros (data & Hread & Hdec) Hall.
  unfold LoadConfigs, bind, call, ret.
  destruct (@os _ (ReadFile (configFile rt)) (world s)) as [r w1]. cbn in *.
  subst r. rewrite Hdec. cbn.
  now rewrite (@validUserConfigs_persistable rt entries Hall).
Qed.

(** Add, then load.  After a successful [AddConfig], when the
    configuration file decodes to what was written, [LoadConfigs]
    returns the sentinel, the entries not flagged default of the list
    [AddConfig] was given, and the new entry last; exactly one entry of
    that list carries the new name. *)
Theorem Add_then_Load (s s1 : Sys W) (name dir : string)
        (current updated : list ChromeConfig) :
  AddConfig rt os name dir current s = ((updated, None), s1) ->
  fileDecodesTo rt os s1 (userProfiles updated) ->
  fst (LoadConfigs rt os s1)
  = defaultInstance
    :: (userProfiles current
        ++ [{| Name := name; UserDataDir := dir; IsDefault := false |}])%list
  /\ List.length (filter (fun cfg => Name cfg =? name) (fst (LoadConfigs rt os s1)))
     = 1.
Proof.
  intros H Hfile.
  destruct (@AddConfig_success s s1 name dir current updated H) as (Hres & Hc & -> & Hs).
  destruct (@collision_none name dir current Hc) as [Hname _].
  rewrite (@Load_of_decoded s1 _ Hfile (@SaveConfigs_success_persistable s s1 _ Hs)).
  rewrite userProfiles_app. split; [reflexivity|].
  assert (D : (DefaultChromeConfigName =? name) = false)
    by (apply String.eqb_neq; congruence).
  cbn [filter app userProfiles negb IsDefault Name defaultInstance].
  rewrite D, filter_app. cbn [filter Name].
  rewrite String.eqb_refl, length_app. cbn [List.length].
  assert (E : filter (fun cfg => Name cfg =? name) (userProfiles current) = []).
  { apply filter_none. intros cfg Hin.
    apply String.eqb_neq. intros Heq. apply Hname.
    apply in_map_iff. now exists cfg. }
  rewrite E. reflexivity.
Qed.

(** [RemoveConfig] touches no entry of another name: whatever it
    returns, every entry of the list it was given that carries another
    name is in the list it returns, and it returns no entry that was
    not given. *)
Theorem RemoveConfig_keeps_other_entries (s : Sys W) (name : string)
        (current : list ChromeConfig) (cfg : ChromeConfig) :
  let returned := fst (fst (RemoveConfig rt os name current s)) in
  (In cfg current -> Name cfg <> name -> In cfg returned)
  /\ (In cfg returned -> In cfg current).
Proof.
  cbv zeta. unfold RemoveConfig. rewrite scanForRemoval_spec.
  destruct (name =? DefaultChromeConfigName); [cbn; tauto|].
  destruct (existsb (fun c => Name c =? name) current); cbn; [|tauto].
  unfold bind. destruct (SaveConfigs rt os _ s) as [[e|] s1]; cbn; [tauto|].
  split.
  - intros Hin Hn. apply filter_In. split; [assumption|].
    apply negb_true_iff. now apply String.eqb_neq.
  - intros Hin. now apply filter_In in Hin.
Qed.

(** The sentinel survives every [RemoveConfig]. *)
Theorem RemoveConfig_keeps_sentinel (s : Sys W) (name : string)
        (current : list ChromeConfig) :
  In defaultInstance current ->
  In defaultInstance (fst (fst (RemoveConfig rt os name current s))).
Proof.
  intros Hin. unfold RemoveConfig. rewrite scanForRemoval_spec.
  destruct (name =? DefaultChromeConfigName) eqn:N; [exact Hin|].
  destruct (existsb (fun c => Name c =? name) current); cbn; [|exact Hin].
  unfold bind. destruct (SaveConfigs rt os _ s) as [[e|] s1]; cbn; [exact Hin|].
  apply filter_In. split; [exact Hin|].
  change (Name defaultInstance) with DefaultChromeConfigName.
  apply negb_true_iff. apply String.eqb_neq. apply String.eqb_neq in N. congruence.
Qed.

(** Remove, then load.  After a successful [RemoveConfig], when the
    configuration file decodes to what was written, [LoadConfigs]
    returns the sentinel followed by the entries of other names not
    flagged default, in their order, and no entry of the removed
    name. *)
Theorem Remove_then_Load (s s1 : Sys W) (name : string)
        (current updated : list ChromeConfig) :
  RemoveConfig rt os name current s = ((updated, None), s1) ->
  fileDecodesTo rt os s1 (userProfiles updated) ->
  fst (LoadConfigs rt os s1)
  = defaultInstance
    :: userProfiles (filter (fun cfg => negb (Name cfg =? name)) current)
  /\ ~ In name (map Name (fst (LoadConfigs rt os s1))).
Proof.
  unfold RemoveConfig. rewrite scanForRemoval_spec.
  destruct (name =? DefaultChromeConfigName) eqn:N; [intros H; inversion H|].
  destruct (existsb (fun c => Name c =? name) current); cbn;
    [|intros H; inversion H].
  unfold bind.
  destruct (SaveConfigs rt os _ s) as [[e|] s2] eqn:Sv; cbn;
    intros H; inversion H; subst.
  intros Hfile.
  rewrite (@Load_of_decoded s1 _ Hfile (@SaveConfigs_success_persistable s s1 _ Sv)).
  split; [reflexivity|]. cbn [map Name defaultInstance].
  apply String.eqb_neq in N.
  intros [Heq | Hin]; [congruence|].
  apply in_map_iff in Hin. destruct Hin as (cfg & Hn & Hin).
  apply filter_In in Hin. destruct Hin as [Hin _].
  apply filter_In in Hin. destruct Hin as [_ Hne].
  rewrite Hn, String.eqb_refl in Hne. discriminate Hne.
Qed.

End RegistryAddRemove.

(** ** The process matcher *)

Ltac case_os os :=
  match goal with
  | |- context [@os ?X ?c ?w0] =>
      let r := fresh "r" in
      let w1 := fresh "w" in
      destruct (@os X c w0) as [r w1]
  end;
  cbn.

Section Matcher.

Import Config Chrome.

Variable rt : Runtime.
Variable W : Type.
Variable os : Handler W.

Lemma logsOnly_ret (P : Event -> bool) (A : Type) (a : A) :
  logsOnly (W := W) P (ret a).
Proof. intros w. reflexivity. Qed.

Lemma logsOnly_bind (P : Event -> bool) (A B : Type) (m : M (Sys W) A)
      (k : A -> M (Sys W) B) :
  logsOnly P m -> (forall a, appendsToLog (k a)) -> (forall a, logsOnly P (k a)) ->
  logsOnly P (bind m k).
Proof.
  intros Pm Fk Pk w. unfold bind.
  specialize (Pm w). destruct (m (mkSys w [])) as [a [w1 l1]]. cbn in Pm.
  rewrite (Fk a w1 l1). cbn. rewrite forallb_app, Pm. apply Pk.
Qed.

Lemma logsOnly_call (P : Event -> bool) (X : Type) (c : Call X) :
  P (EvOS c) = true -> logsOnly P (call os c).
Proof.
  intros H w. unfold call. cbn. destruct (@os X c w) as [x w1]. cbn.
  now rewrite H.
Qed.

(** The loop of [chromeStop] looks processes up, signals them with
    [SIGTERM] or runs [taskkill], and calls nothing else. *)
Lemma killAll_only_kills (pids : list string) :
  forall killed last, logsOnly isKillCall (killAll rt os pids killed last).
Proof.
  induction pids as [|pidStr rest IH]; intros killed last; cbn.
  - apply logsOnly_ret.
  - destruct (TrimSpace pidStr =? ""); [apply IH|].
    destruct (Atoi (TrimSpace pidStr)) as [pid|]; [|apply IH].
    destruct (GOOS rt =? "windows").
    + apply logsOnly_bind; [now apply logsOnly_call | |].
      * intros [e|]; [destruct (isExit 128 e)|]; apply wellLogged_killAll.
      * intros [e|]; [destruct (isExit 128 e)|]; apply IH.
    + apply logsOnly_bind; [now apply logsOnly_call | |].
      * intros [process|e].
        -- apply appendsToLog_bind; [apply appendsToLog_call|].
           intros [e|]; [destruct (isESRCH e)|]; apply wellLogged_killAll.
        -- destruct (isESRCH e || Contains (ErrorText e) "process already finished");
             apply wellLogged_killAll.
      * intros [process|e].
        -- apply logsOnly_bind; [now apply logsOnly_call | |].
           ++ intros [e|]; [destruct (isESRCH e)|]; apply wellLogged_killAll.
           ++ intros [e|]; [destruct (isESRCH e)|]; apply IH.
        -- destruct (isESRCH e || Contains (ErrorText e) "process already finished");
             apply IH.
Qed.


(** When the loop of [chromeStop] starts without a success and ends
    with one, it has made a call. *)
Lemma killAll_success_needs_call (pids : list string) :
  forall (last : option error) (w : W),
    fst (fst (killAll rt os pids false last (mkSys w []))) = true ->
    log (snd (killAll rt os pids false last (mkSys w []))) <> [].
Proof.
  assert (F : forall rest k l, appendsToLog (killAll rt os rest k l))
    by (intros; apply wellLogged_killAll).
  induction pids as [|pidStr rest IH]; intros last w; cbn; [discriminate|].
  destruct (TrimSpace pidStr =? ""); [apply IH|].
  destruct (Atoi (TrimSpace pidStr)) as [pid|]; [|apply IH].
  unfold bind, call. cbn.
  destruct (GOOS rt =? "windows").
  - case_os os. destruct r as [e|]; [destruct (isExit 128 e)|];
      rewrite F; cbn; intros _; discriminate.
  - case_os os. destruct r as [process|e].
    + case_os os. destruct r as [e|]; [destruct (isESRCH e)|];
        rewrite F; cbn; intros _; discriminate.
    + destruct (isESRCH e || Contains (ErrorText e) "process already finished");
        rewrite F; cbn; intros _; discriminate.
Qed.

(** The calls and the results of [chromeStop].  It makes no call at
    all, or one discovery command followed by process lookups,
    [SIGTERM] signals and [taskkill] runs only.  It never reports a
    stop together with an error, and it reports a stop only after at
    least one of those calls for a process. *)
Theorem chromeStop_calls_and_results (w : W) (dir : string) :
  let out := chromeStop rt os dir (freshSys w) in
  (log (snd out) = []
   \/ exists (name : string) (args : list string) (kills : list Event),
        findCommand rt dir = Ok (name, args)
        /\ log (snd out) = EvOS (CmdOutput name args) :: kills
        /\ forallb isKillCall kills = true
        /\ (fst (fst out) = true -> kills <> []))
  /\ (fst (fst out) = true -> snd (fst out) = None)
  /\ (fst (fst out) = true -> log (snd out) <> []).
Proof.
  cbv zeta.
  destruct (chromeStop rt os dir (freshSys w)) as [[stopped err] [w' l]] eqn:E.
  cbn. unfold chromeStop, freshSys in E.
  destruct (findCommand rt dir) as [[name args]|e];
    [|inversion E; subst; repeat split; try (left; reflexivity);
      intros; congruence].
  unfold bind at 1 in E. unfold call at 1 in E. cbn in E.
  destruct (@os _ (CmdOutput name args) w) as [[output [e|]] w1]; cbn in E.
  - destruct (findFailureIsNotFound dir output e); inversion E; subst;
      (split; [right; exists name, args, []; repeat split; intros; congruence|]);
      split; intros; congruence.
  - destruct (TrimSpace output =? "");
      [inversion E; subst;
       split; [right; exists name, args, []; repeat split; intros; congruence
              | split; intros; congruence]|].
    match type of E with context [if ?b then _ else _] => destruct b end;
      [inversion E; subst;
       split; [right; exists name, args, []; repeat split; intros; congruence
              | split; intros; congruence]|].
    unfold bind in E.
    match type of E with
    | context [killAll rt os ?p false None _] => set (pids := p) in E
    end.
    rewrite (proj1 (wellLogged_killAll rt os pids false None) w1
               [EvOS (CmdOutput name args)]) in E.
    pose proof (killAll_only_kills pids false None w1) as K.
    pose proof (@killAll_success_needs_call pids None w1) as N.
    destruct (killAll rt os pids false None (mkSys w1 []))
      as [[killed last] [w2 l2]]; cbn in *.
    destruct killed; [|destruct last]; inversion E; subst;
      (split; [right; exists name, args, l2; repeat split; auto; intros; congruence|]);
      split; intros; congruence.
Qed.

(** [NewInstance] binds the instance to the configuration it is given
    and never holds a handle.  It makes at most one call, a discovery
    command, and marks the instance running only when that command ran
    without error and printed something else than white space: when
    the processes cannot be listed, the instance counts as stopped. *)
Theorem NewInstance_holds_no_handle (s : Sys W) (cfg : ChromeConfig) :
  let out := NewInstance rt os cfg s in
  config (fst out) = cfg
  /\ cmd (fst out) = None
  /\ (snd out = s
      \/ exists (name : string) (args : list string),
           inUseCommand rt (UserDataDir cfg) = Some (name, args)
           /\ log (snd out) = (log s ++ [EvOS (CmdOutput name args)])%list)
  /\ (isRunning (fst out) = true ->
      exists (name : string) (args : list string) (output : string),
        inUseCommand rt (UserDataDir cfg) = Some (name, args)
        /\ fst (os (CmdOutput name args) (world s)) = (output, None)
        /\ TrimSpace output <> "").
Proof.
  cbv zeta. unfold NewInstance, isChromeDirInUse, bind, call, ret.
  destruct (inUseCommand rt (UserDataDir cfg)) as [[name args]|]; cbn;
    [|repeat split; [now left | discriminate]].
  destruct (@os _ (CmdOutput name args) (world s)) as [[output [e|]] w1] eqn:O;
    cbn; (split; [reflexivity|]); (split; [reflexivity|]);
    (split; [right; exists name, args; split; reflexivity|]);
    [intros H; discriminate H|].
  intros H. exists name, args, output.
  split; [reflexivity|]. split; [now rewrite O|].
  intros E. rewrite E in H. discriminate H.
Qed.

(** On a platform that is none of the three the code knows,
    [chromeStop] calls nothing and fails, so that [Stop] on a running
    instance without an owned process returns a stop error and leaves
    it running; yet for a profile with a directory [NewInstance] still
    asks [pgrep] there, and can mark the instance running. *)
Theorem unknown_platform_cannot_stop_what_it_observes (w : W)
        (cfg : ChromeConfig) (c : option Cmd) :
  (GOOS rt =? "windows") || (GOOS rt =? "darwin") || (GOOS rt =? "linux") = false ->
  ownedProcess c = None ->
  let ci := {| config := cfg; cmd := c; isRunning := true |} in
  (exists e : error,
     Stop rt os (freshISt w ci)
     = (Some e,
        mkISt (mkSys w [EvLock; EvRead FIsRunning; EvRead FCmd; EvUnlock]) ci)
     /\ kindOf e = StopError)
  /\ (UserDataDir cfg <> "" ->
      inUseCommand rt (UserDataDir cfg)
      = Some ("pgrep", ["-f"; "chrome.*--user-data-dir=" ++ UserDataDir cfg])).
Proof.
  intros G Hc. cbv zeta.
  apply orb_false_iff in G. destruct G as [G Gl].
  apply orb_false_iff in G. destruct G as [Gw Gd].
  split.
  - assert (F : exists e, findCommand rt (UserDataDir cfg) = Err e).
    { unfold findCommand. rewrite Gw, Gd, Gl.
      destruct (UserDataDir cfg =? ""); eexists; reflexivity. }
    destruct F as [e F].
    exists (StopByDirFailed (Name cfg) (UserDataDir cfg) e).
    split; [|reflexivity].
    unfold Stop, freshISt, freshSys, chromeStop. unfold_methods.
    cbn -[findCommand]. rewrite Hc. cbn -[findCommand]. rewrite F. reflexivity.
  - intros D. apply String.eqb_neq in D.
    unfold inUseCommand, matchDir. rewrite D, Gw, Gd, Gl. reflexivity.
Qed.

End Matcher.

(** ** The methods of an instance *)

Ltac os_log :=
  unfold osCalls; rewrite ?filter_app; cbn; rewrite ?app_nil_r; reflexivity.

Section Methods.

Import Config Chrome.

Variable rt : Runtime.
Variable W : Type.
Variable os : Handler W.

Lemma Stop_cases (s : Sys W) (ci : Instance) :
  let out := Stop rt os (mkISt s ci) in
  (fst out = None
   /\ isRunning ci = true
   /\ self (snd out)
      = {| config := config ci; cmd := cmd ci; isRunning := false |})
  \/ (exists e : error,
        fst out = Some e
        /\ self (snd out) = ci
        /\ (kindOf e = NotRunningError \/ kindOf e = StopError)).
Proof.
  cbv zeta.
  destruct (Stop rt os (mkISt s ci)) as [r st] eqn:E. cbn.
  unfold Stop in E. unfold_methods. cbn -[chromeStop] in E.
  destruct (isRunning ci) eqn:R; cbn -[chromeStop] in E.
  - destruct (ownedProcess (cmd ci)) as [p|]; cbn -[chromeStop] in E.
    + destruct (@os _ (ProcessSignal p SIGTERM) (world s)) as [[e1|] w1];
        cbn -[chromeStop] in E.
      * match type of E with
        | context [chromeStop rt os ?d ?x] =>
            destruct (chromeStop rt os d x) as [[stopped [se|]] y]
        end; cbn in E.
        -- inversion E; subst. right. eexists. repeat split; auto.
        -- destruct stopped; cbn in E; inversion E; subst.
           ++ left. repeat split.
           ++ right. eexists. repeat split; auto.
      * inversion E; subst. left. repeat split.
    + match type of E with
      | context [chromeStop rt os ?d ?x] =>
          destruct (chromeStop rt os d x) as [[stopped [se|]] y]
      end; cbn in E.
      * inversion E; subst. right. eexists. repeat split; auto.
      * destruct stopped; cbn in E; inversion E; subst.
        -- left. repeat split.
        -- right. eexists. repeat split; auto.
  - inversion E; subst. right. eexists. repeat split; auto.
Qed.

(** [Stop] changes nothing but the running flag, and that only on
    success: either it returns nil, the instance was running and is now
    marked stopped, with the handle it had; or it returns an error, a
    not-running or a stop error, and the instance is what it was. *)
Theorem Stop_changes_only_the_flag (s : Sys W) (ci : Instance) :
  let out := Stop rt os (mkISt s ci) in
  (fst out = None
   /\ isRunning ci = true
   /\ self (snd out)
      = {| config := config ci; cmd := cmd ci; isRunning := false |})
  \/ (exists e : error,
        fst out = Some e
        /\ self (snd out) = ci
        /\ (kindOf e = NotRunningError \/ kindOf e = StopError)).
Proof. exact (Stop_cases s ci). Qed.

(** [IsRunning] asks the operating system nothing.  It answers the
    running flag, except that a handle whose process state says
    "exited" makes it drop the handle, clear the flag and answer false.
    Asked again at once, it gives the same answer and changes
    nothing. *)
Theorem IsRunning_makes_no_call (s : Sys W) (ci : Instance) :
  let out := IsRunning (mkISt s ci) in
  world (sys (snd out)) = world s
  /\ osCalls (log (sys (snd out))) = osCalls (log s)
  /\ fst out = isRunning ci && negb (hasExited (cmd ci))
  /\ self (snd out)
     = (if hasExited (cmd ci)
        then {| config := config ci; cmd := None; isRunning := false |}
        else ci)
  /\ fst (IsRunning (snd out)) = fst out
  /\ self (snd (IsRunning (snd out))) = self (snd out).
Proof.
  cbv zeta. unfold IsRunning. unfold_methods. cbn.
  destruct (hasExited (cmd ci)) eqn:H; cbn.
  - rewrite andb_false_r. repeat split.
    os_log.
  - rewrite H. cbn. rewrite andb_true_r. repeat split.
    os_log.
Qed.

(** Whatever the instance holds, [Wait] leaves it marked stopped and
    without a handle.  Its only possible call is the wait for the
    process of the handle it found, whose error it returns. *)
Theorem Wait_leaves_instance_stopped (s : Sys W) (ci : Instance) :
  let out := Wait os (mkISt s ci) in
  self (snd out) = {| config := config ci; cmd := None; isRunning := false |}
  /\ (world (sys (snd out)) = world s
      /\ osCalls (log (sys (snd out))) = osCalls (log s)
      \/ exists (c : Cmd) (p : Process),
           cmd ci = Some c /\ CmdProcess c = Some p
           /\ osCalls (log (sys (snd out)))
              = (osCalls (log s) ++ [EvOS (ProcessWait p)])%list
           /\ fst out = snd (fst (os (ProcessWait p) (world s)))).
Proof.
  cbv zeta. unfold Wait, cmdWait, recordProcessState. unfold_methods. cbn.
  destruct (cmd ci) as [c|] eqn:C; cbn.
  - destruct (CmdProcess c) as [p|] eqn:P; cbn.
    + destruct (CmdProcessState c); cbn.
      * split; [reflexivity|]. left. split; [reflexivity|].
        os_log.
      * destruct (@os _ (ProcessWait p) (world s)) as [[st err] w1] eqn:O. cbn.
        split; [reflexivity|]. right. exists c, p.
        split; [reflexivity|]. split; [exact P|]. split; [os_log | now rewrite O].
    + split; [reflexivity|]. left. split; [reflexivity|].
      os_log.
  - split; [reflexivity|]. left. split; [reflexivity|].
    os_log.
Qed.

(** The calls of [Start], in all: none, with an error returned; or one
    spawn of the launch command of the profile, whose arguments end
    with the two suppression flags, preceded by at most one argument
    and by none when the directory of the profile is empty. *)
Theorem Start_spawns_at_most_once (w : W) (ci : Instance) :
  let out := Start rt os (freshISt w ci) in
  (osCalls (log (sys (snd out))) = [] /\ fst out <> None)
  \/ exists (name : string) (args front : list string),
       launchCommand rt (UserDataDir (config ci)) = Ok (name, args)
       /\ osCalls (log (sys (snd out))) = [EvOS (CmdStart name args)]
       /\ args = (front ++ commonArgs)%list
       /\ (List.length front <= 1)%nat
       /\ (UserDataDir (config ci) = "" -> front = []).
Proof.
  cbv zeta. unfold Start, freshISt, freshSys. unfold_methods.
  cbn -[launchCommand].
  destruct (isRunning ci); cbn -[launchCommand];
    [left; split; [reflexivity | discriminate]|].
  destruct (launchCommand rt (UserDataDir (config ci))) as [[name args]|e0] eqn:L;
    cbn; [|left; split; [reflexivity | discriminate]].
  right.
  destruct (@launchCommand_suppression_flags rt _ name args L)
    as (front & Hargs & Hlen).
  exists name, args, front.
  split; [reflexivity|].
  split; [destruct (@os _ (CmdStart name args) w) as [[p|e1] w1]; reflexivity|].
  repeat split; auto.
  intros D. rewrite D in L.
  destruct (launchCommand_default_profile rt) as [name' L'].
  rewrite L in L'. inversion L'; subst.
  destruct front as [|a [|b front]]; [reflexivity | discriminate | cbn in Hlen; lia].
Qed.

(** The handle [Start] records is the process the operating system
    started: it is the process [Stop] signals first, and the process
    [Wait] waits for, returning what that wait returns. *)
Theorem started_process_is_the_one_stopped_and_awaited
        (w w1 w2 : W) (ci : Instance) (name : string) (args : list string)
        (p : Process) :
  isRunning ci = false ->
  launchCommand rt (UserDataDir (config ci)) = Ok (name, args) ->
  os (CmdStart name args) w = (Ok p, w1) ->
  let started := self (snd (Start rt os (freshISt w ci))) in
  ownedProcess (cmd started) = Some p
  /\ hd_error (osCalls (log (sys (snd (Stop rt os (freshISt w2 started))))))
     = Some (EvOS (ProcessSignal p SIGTERM))
  /\ osCalls (log (sys (snd (Wait os (freshISt w2 started)))))
     = [EvOS (ProcessWait p)]
  /\ fst (Wait os (freshISt w2 started)) = snd (fst (os (ProcessWait p) w2)).
Proof.
  intros R L O. cbv zeta.
  assert (S : self (snd (Start rt os (freshISt w ci)))
              = {| config := config ci;
                   cmd := Some {| Path := name; Args := args;
                                  CmdProcess := Some p; CmdProcessState := None |};
                   isRunning := true |}).
  { unfold Start, freshISt, freshSys. unfold_methods. cbn -[launchCommand].
    rewrite R. cbn -[launchCommand]. rewrite L. cbn. rewrite O. reflexivity. }
  rewrite S. split; [reflexivity|].
  split.
  - unfold Stop, freshISt, freshSys. unfold_methods. cbn -[chromeStop].
    destruct (@os _ (ProcessSignal p SIGTERM) w2) as [[e1|] w3];
      cbn -[chromeStop]; [|reflexivity].
    rewrite (appendsToLog_chromeStop rt os (UserDataDir (config ci)) w3).
    destruct (chromeStop rt os (UserDataDir (config ci)) (mkSys w3 []))
      as [[stopped [se|]] [w4 l4]]; cbn; [|destruct stopped; cbn];
      unfold osCalls; rewrite ?filter_app; reflexivity.
  - unfold Wait, cmdWait, recordProcessState, freshISt, freshSys.
    unfold_methods. cbn.
    destruct (@os _ (ProcessWait p) w2) as [[st err] w3]. split; reflexivity.
Qed.

(** After a successful [Stop] the instance can be started again:
    [Start] does not answer "already running"; it spawns the launch
    command of the profile and, when the spawn succeeds, replaces the
    handle. *)
Theorem stopped_instance_starts_again (s : Sys W) (st : ISt W) (ci : Instance)
        (w : W) (name : string) (args : list string) :
  Stop rt os (mkISt s ci) = (None, st) ->
  launchCommand rt (UserDataDir (config ci)) = Ok (name, args) ->
  let out := Start rt os (freshISt w (self st)) in
  osCalls (log (sys (snd out))) = [EvOS (CmdStart name args)]
  /\ (forall (p : Process) (w1 : W),
        os (CmdStart name args) w = (Ok p, w1) ->
        fst out = None
        /\ isRunning (self (snd out)) = true
        /\ ownedProcess (cmd (self (snd out))) = Some p).
Proof.
  intros E L. cbv zeta.
  destruct (Stop_cases s ci) as [(_ & _ & S) | (e & He & _)];
    rewrite E in *; cbn in *; [|discriminate He].
  rewrite S. unfold Start, freshISt, freshSys. unfold_methods.
  cbn -[launchCommand]. rewrite L. cbn.
  destruct (@os _ (CmdStart name args) w) as [[p|e1] w1]; cbn.
  - split; [reflexivity|]. intros p' w' H. inversion H; subst. repeat split.
  - split; [reflexivity|]. intros p' w' H. discriminate H.
Qed.

End Methods.

(** ** The directory flag on Windows *)

Section WindowsFlag.

Import Chrome.



End WindowsFlag.

(** ** What every reachable instance satisfies *)

Section Reachable.

Import Config Chrome.

Variable rt : Runtime.
Variable W : Type.
Variable os : Handler W.

Lemma handleOwned_unset (cfg : ChromeConfig) (ci : Instance) (b : bool) :
  handleOwned rt cfg ci ->
  handleOwned rt cfg {| config := config ci; cmd := None; isRunning := b |}.
Proof. intros [C _]. split; [exact C | discriminate]. Qed.

Lemma handleOwned_flag (cfg : ChromeConfig) (ci : Instance) (b : bool) :
  handleOwned rt cfg ci ->
  handleOwned rt cfg {| config := config ci; cmd := cmd ci; isRunning := b |}.
Proof. intros [C H]. split; [exact C | exact H]. Qed.

(** An instance stays bound to the profile it was built for, and a
    command object it holds, in whatever state a sequence of method
    calls has left it, is a started process of the launch command of
    that profile: [Stop] never finds a command object without a
    process, and [Wait] never waits on a command that was not
    started. *)
Theorem reachable_handle_is_owned (cfg : ChromeConfig) (ci : Instance) :
  reachable rt os cfg ci -> handleOwned rt cfg ci.
Proof.
  induction 1 as [s | ci s R IH | ci s R IH | ci s R IH | ci s b R IH | ci s R IH].
  - unfold NewInstance, bind, ret.
    destruct (isChromeDirInUse rt os (UserDataDir cfg) s) as [inUse s1]. cbn.
    split; [reflexivity | discriminate].
  - unfold Start. unfold_methods. cbn -[launchCommand].
    destruct (isRunning ci); cbn -[launchCommand]; [exact IH|].
    destruct (launchCommand rt (UserDataDir (config ci))) as [[name args]|e0] eqn:L;
      cbn; [|exact IH].
    destruct (@os _ (CmdStart name args) (world s)) as [[p|e1] w1]; cbn;
      [|exact IH].
    destruct IH as [C _]. split; [exact C|].
    intros c Hc. inversion Hc; subst. cbn. split; [now exists p | exact L].
  - destruct (Stop_cases rt os s ci) as [(_ & _ & S) | (e & _ & S & _)];
      rewrite S; [now apply handleOwned_flag | exact IH].
  - unfold IsRunning. unfold_methods. cbn.
    destruct (hasExited (cmd ci)); cbn; [now apply handleOwned_unset | exact IH].
  - unfold SetRunningState. unfold_methods. cbn.
    destruct b; cbn; [now apply handleOwned_flag | now apply handleOwned_unset].
  - unfold Wait, cmdWait, recordProcessState. unfold_methods. cbn.
    destruct (cmd ci) as [c|]; cbn; [|now apply handleOwned_unset].
    destruct (CmdProcess c) as [p|]; cbn; [|now apply handleOwned_unset].
    destruct (CmdProcessState c); cbn; [now apply handleOwned_unset|].
    destruct (@os _ (ProcessWait p) (world s)) as [[st err] w1]; cbn.
    now apply handleOwned_unset.
Qed.

End Reachable.

(** ** The window: reloading, and the add form *)

Section Window.

Import Config Chrome Main.

Variable rt : Runtime.
Variable W : Type.
Variable os : Handler W.

(** The loop of [reloadInstancesAndRefreshList]: one instance for each
    configuration, in order, none with a handle; at most one call for
    each, a discovery command. *)
Lemma newInstances_spec (configs : list ChromeConfig) :
  forall s : Sys W,
    let out := newInstances rt os configs s in
    map config (fst out) = configs
    /\ Forall (fun ci => cmd ci = None) (fst out)
    /\ exists calls : list Event,
         osCalls (log (snd out)) = (osCalls (log s) ++ calls)%list
         /\ forallb isDiscovery calls = true
         /\ (List.length calls <= List.length configs)%nat.
Proof.
  induction configs as [|cfg rest IH]; intros s; cbv zeta.
  - cbn. split; [reflexivity|]. split; [constructor|].
    exists []. rewrite app_nil_r.
    split; [reflexivity|]. split; [reflexivity|]. cbn. lia.
  - cbn [newInstances].
    unfold NewInstance, isChromeDirInUse, runMethod, IsRunning.
    unfold_methods.
    destruct (inUseCommand rt (UserDataDir cfg)) as [[name args]|];
      [destruct (@os _ (CmdOutput name args) (world s)) as [[output [e|]] w1]|];
      cbn -[newInstances];
      match goal with
      | |- context [newInstances rt os rest ?st] =>
          destruct (IH st) as (Hm & Hf & calls & Hc & Hd & Hl);
          destruct (newInstances rt os rest st) as [others s2]
      end;
      cbn in *; rewrite Hm;
      (split; [reflexivity|]);
      (split; [constructor; [reflexivity | exact Hf]|]);
      unfold osCalls in *; rewrite ?filter_app in Hc; cbn in Hc;
      rewrite ?app_nil_r in Hc; rewrite Hc.
    + exists (EvOS (CmdOutput name args) :: calls). rewrite <- app_assoc.
      split; [reflexivity|]. split; [exact Hd | cbn; lia].
    + exists (EvOS (CmdOutput name args) :: calls). rewrite <- app_assoc.
      split; [reflexivity|]. split; [exact Hd | cbn; lia].
    + exists calls. split; [reflexivity|]. split; [exact Hd | cbn; lia].
Qed.


(** The add form, accepted.  When [AddConfig] accepts the pair given
    the list just loaded, and the configuration file then decodes to
    what was written, the window ends up with the list it had loaded
    and the new entry last, and with one instance for each, in order,
    none holding a handle. *)
Theorem onAddSubmit_shows_the_new_entry (s : Sys W) (name workdir : string) :
  let loaded := LoadConfigs rt os s in
  let added := AddConfig rt os name workdir (fst loaded) (snd loaded) in
  let shown :=
    (fst loaded
     ++ [{| Name := name; UserDataDir := workdir; IsDefault := false |}])%list in
  snd (fst added) = None ->
  fileDecodesTo rt os (snd added) (userProfiles (fst (fst added))) ->
  exists instances : list Instance,
    fst (onAddSubmit rt os name workdir s) = Ok (shown, instances)
    /\ map config instances = shown
    /\ Forall (fun ci => cmd ci = None) instances.
Proof.
  cbv zeta. unfold onAddSubmit, reloadInstances. unfold bind at 1.
  destruct (@LoadConfigs_cases rt W os s) as (users & Hout & _ & Hu & _).
  destruct (LoadConfigs rt os s) as [current s1]. cbn [fst snd] in Hout, Hu |- *.
  unfold bind at 1.
  destruct (AddConfig rt os name workdir current s1) as [[updated err] s2] eqn:A.
  cbn. intros -> Hfile.
  destruct (@AddConfig_success rt W os s1 s2 name workdir current updated A)
    as (_ & _ & Hupd & Hs).
  pose proof (@Load_of_decoded rt W os s2 _ Hfile
                (@SaveConfigs_success_persistable rt W os s1 s2 _ Hs)) as HL.
  unfold bind, ret.
  destruct (LoadConfigs rt os s2) as [configs s3]. cbn in HL. subst configs.
  match goal with
  | |- context [newInstances rt os ?l s3] =>
      destruct (newInstances_spec l s3) as (Hm & Hf & _);
      destruct (newInstances rt os l s3) as [instances s4]
  end.
  cbn [fst snd] in *. exists instances.
  assert (E : defaultInstance :: userProfiles updated
              = (current ++ [{| Name := name; UserDataDir := workdir;
                                IsDefault := false |}])%list).
  { rewrite Hupd, userProfiles_app, Hu, Hout. reflexivity. }
  rewrite <- E. repeat split; auto.
Qed.

Lemma RemoveConfig_success (s s1 : Sys W) (name : string)
      (current updated : list ChromeConfig) :
  RemoveConfig rt os name current s = ((updated, None), s1) ->
  name <> DefaultChromeConfigName
  /\ updated = filter (fun cfg => negb (Name cfg =? name)) current
  /\ SaveConfigs rt os updated s = (None, s1).
Proof.
  unfold RemoveConfig. rewrite scanForRemoval_spec.
  destruct (name =? DefaultChromeConfigName) eqn:N; [intros H; inversion H|].
  destruct (existsb (fun c => Name c =? name) current); cbn;
    [|intros H; inversion H].
  unfold bind.
  destruct (SaveConfigs rt os _ s) as [[e|] s2] eqn:Sv; cbn;
    intros H; inversion H; subst.
  apply String.eqb_neq in N. repeat split; auto.
Qed.

Lemma filter_filter_comm (A : Type) (f g : A -> bool) (l : list A) :
  filter f (filter g l) = filter g (filter f l).
Proof.
  induction l as [|x rest IH]; cbn; [reflexivity|].
  destruct (g x) eqn:G; destruct (f x) eqn:F; cbn; rewrite ?G, ?F, IH; reflexivity.
Qed.

(** The delete button, confirmed.  When [RemoveConfig] accepts the name
    given the list just loaded, and the configuration file then decodes
    to what was written, the window ends up with the list it had loaded
    less the entries of that name, with one instance for each, in
    order, none holding a handle and none of that name. *)
Theorem onRemoveConfirmed_drops_the_entry (s : Sys W) (name : string) :
  let loaded := LoadConfigs rt os s in
  let removed := RemoveConfig rt os name (fst loaded) (snd loaded) in
  let shown := filter (fun cfg => negb (Name cfg =? name)) (fst loaded) in
  snd (fst removed) = None ->
  fileDecodesTo rt os (snd removed) (userProfiles (fst (fst removed))) ->
  exists instances : list Instance,
    fst (onRemoveConfirmed rt os name s) = Ok (shown, instances)
    /\ map config instances = shown
    /\ Forall (fun ci => cmd ci = None /\ Name (config ci) <> name) instances.
Proof.
  cbv zeta. unfold onRemoveConfirmed, reloadInstances. unfold bind at 1.
  destruct (@LoadConfigs_cases rt W os s) as (users & Hout & _ & Hu & _).
  destruct (LoadConfigs rt os s) as [current s1]. cbn [fst snd] in Hout, Hu |- *.
  unfold bind at 1.
  destruct (RemoveConfig rt os name current s1) as [[updated err] s2] eqn:R.
  cbn. intros -> Hfile.
  destruct (@RemoveConfig_success s1 s2 name current updated R) as (Hn & Hupd & Hs).
  pose proof (@Load_of_decoded rt W os s2 _ Hfile
                (@SaveConfigs_success_persistable rt W os s1 s2 _ Hs)) as HL.
  unfold bind, ret.
  destruct (LoadConfigs rt os s2) as [configs s3]. cbn in HL. subst configs.
  match goal with
  | |- context [newInstances rt os ?l s3] =>
      destruct (newInstances_spec l s3) as (Hm & Hf & _);
      destruct (newInstances rt os l s3) as [instances s4]
  end.
  cbn [fst snd] in *. exists instances.
  assert (E : defaultInstance :: userProfiles updated
              = filter (fun cfg => negb (Name cfg =? name)) current).
  { rewrite Hupd. unfold userProfiles in *. rewrite filter_filter_comm, Hu, Hout.
    cbn [filter]. change (Name defaultInstance) with DefaultChromeConfigName.
    assert (D : (DefaultChromeConfigName =? name) = false)
      by (apply String.eqb_neq; congruence).
    rewrite D. reflexivity. }
  rewrite <- E. split; [reflexivity|]. split; [exact Hm|].
  apply Forall_forall. intros ci Hin. split.
  - rewrite Forall_forall in Hf. now apply Hf.
  - assert (Hc : In (config ci) (map config instances)) by now apply in_map.
    rewrite Hm in Hc.
    change (In (config ci) (defaultInstance :: userProfiles updated)) in Hc.
    rewrite E in Hc. apply filter_In in Hc. destruct Hc as [_ Hc].
    apply negb_true_iff in Hc. now apply String.eqb_neq.
Qed.

End Window.

(** ** Runs of the further properties on the simulated world *)

Section FurtherRuns.

Import Config Chrome Main Sample Scenario.

Lemma LoadConfigs_without_file_witness :
  fst (simulate (ReadFile (configFile linux)) quiet) = Err ErrNotExist
  /\ fst (LoadConfigs linux simulate (freshSys quiet)) = [defaultInstance].
Proof.
  split; [reflexivity|].
  apply (@LoadConfigs_without_file linux World simulate (freshSys quiet)).
  left. exists ErrNotExist. reflexivity.
Defined.

Lemma SaveConfigs_refusal_writes_nothing_witness :
  exists e : error,
    SaveConfigs linux simulate
      [defaultInstance; work;
       {| Name := "blank"; UserDataDir := ""; IsDefault := false |}]
      (freshSys quiet)
    = (Some e, freshSys quiet)
    /\ kindOf e = ValidationError.
Proof.
  apply (@SaveConfigs_refusal_writes_nothing linux World simulate).
  intros H. cbn in H. inversion H as [|x l _ H1]; subst.
  inversion H1 as [|y l' (_ & _ & E & _) _]; subst. apply E. reflexivity.
Defined.

Lemma default_directory_unknown_witness :
  GetDefaultUserDataDir freebsd = ""
  /\ usesDefaultDir freebsd "/home/u/.config/google-chrome" = false.
Proof.
  apply (@default_directory_unknown freebsd). left. reflexivity.
Defined.

Lemma AddConfig_rejects_duplicates_witness :
  exists e : error,
    AddConfig linux simulate "work" "/elsewhere" [defaultInstance; work]
              (freshSys quiet)
    = (([defaultInstance; work], Some e), freshSys quiet)
    /\ kindOf e = ValidationError.
Proof.
  apply (@AddConfig_rejects_duplicates linux World simulate (freshSys quiet)
           "work" "/elsewhere" [defaultInstance; work] work).
  - right. left. reflexivity.
  - reflexivity.
  - left. reflexivity.
Defined.

Lemma AddConfig_keeps_registry_well_formed_witness :
  NoDup (map Name (userProfiles [defaultInstance; work; play]))
  /\ dirsDistinct linux (userProfiles [defaultInstance; work; play])
  /\ Forall (persistable linux) (userProfiles [defaultInstance; work; play]).
Proof.
  apply (@AddConfig_keeps_registry_well_formed linux World simulate
           (freshSys quiet)
           (snd (AddConfig linux simulate "play" "profiles/play"
                   [defaultInstance; work] (freshSys quiet)))
           "play" "profiles/play" [defaultInstance; work]).
  - vm_compute. reflexivity.
  - cbn. constructor; [intros [] | constructor].
  - cbn. split; [constructor | exact I].
Defined.

Lemma Add_then_Load_witness :
  fst (LoadConfigs linux simulate
         (snd (AddConfig linux simulate "play" "profiles/play"
                 [defaultInstance; work] (freshSys quiet))))
  = [defaultInstance; work; play]
  /\ List.length
       (filter (fun cfg => Name cfg =? "play")
          (fst (LoadConfigs linux simulate
                  (snd (AddConfig linux simulate "play" "profiles/play"
                          [defaultInstance; work] (freshSys quiet))))))
     = 1.
Proof.
  apply (@Add_then_Load linux World simulate (freshSys quiet)
           (snd (AddConfig linux simulate "play" "profiles/play"
                   [defaultInstance; work] (freshSys quiet)))
           "play" "profiles/play" [defaultInstance; work]
           [defaultInstance; work; play]).
  - vm_compute. reflexivity.
  - exists (match sampleMarshalIndent [toJSON work; toJSON play] with
            | Ok data => data
            | Err _ => ""
            end).
    split; vm_compute; reflexivity.
Defined.

Lemma RemoveConfig_keeps_other_entries_witness :
  In play [defaultInstance; work; play]
  /\ Name play <> "work"
  /\ In play (fst (fst (RemoveConfig linux simulate "work"
                          [defaultInstance; work; play] (freshSys quiet)))).
Proof.
  assert (Hin : In play [defaultInstance; work; play]) by (cbn; tauto).
  assert (Hn : Name play <> "work") by discriminate.
  split; [exact Hin|]. split; [exact Hn|].
  exact (proj1 (@RemoveConfig_keeps_other_entries linux World simulate
                  (freshSys quiet) "work" [defaultInstance; work; play] play)
               Hin Hn).
Defined.

Lemma RemoveConfig_keeps_sentinel_witness :
  In defaultInstance
     (fst (fst (RemoveConfig linux simulate "work" [defaultInstance; work; play]
                  (freshSys quiet)))).
Proof.
  apply (@RemoveConfig_keeps_sentinel linux World simulate). left. reflexivity.
Defined.

Lemma Remove_then_Load_witness :
  fst (LoadConfigs linux simulate
         (snd (RemoveConfig linux simulate "work" [defaultInstance; work; play]
                 (freshSys quiet))))
  = [defaultInstance; play]
  /\ ~ In "work"
       (map Name
          (fst (LoadConfigs linux simulate
                  (snd (RemoveConfig linux simulate "work"
                          [defaultInstance; work; play] (freshSys quiet)))))).
Proof.
  apply (@Remove_then_Load linux World simulate (freshSys quiet)
           (snd (RemoveConfig linux simulate "work" [defaultInstance; work; play]
                   (freshSys quiet)))
           "work" [defaultInstance; work; play] [defaultInstance; play]).
  - vm_compute. reflexivity.
  - exists (match sampleMarshalIndent [toJSON play] with
            | Ok data => data
            | Err _ => ""
            end).
    split; vm_compute; reflexivity.
Defined.

Lemma chromeStop_calls_and_results_witness :
  fst (chromeStop linux simulate "" (freshSys browserSeen)) = (true, None)
  /\ log (snd (chromeStop linux simulate "" (freshSys browserSeen))) <> [].
Proof.
  pose proof (@chromeStop_calls_and_results linux World simulate browserSeen "")
    as H.
  cbv zeta in H. destruct H as (_ & _ & H).
  split; [vm_compute; reflexivity|]. apply H. vm_compute. reflexivity.
Defined.

Lemma NewInstance_holds_no_handle_witness :
  isRunning (fst (NewInstance linux simulate defaultInstance (freshSys browserSeen)))
  = true
  /\ exists (name : string) (args : list string) (output : string),
       inUseCommand linux "" = Some (name, args)
       /\ fst (simulate (CmdOutput name args) browserSeen) = (output, None)
       /\ TrimSpace output <> "".
Proof.
  split; [vm_compute; reflexivity|].
  pose proof (@NewInstance_holds_no_handle linux World simulate
                (freshSys browserSeen) defaultInstance) as H.
  cbv zeta in H. destruct H as (_ & _ & _ & H).
  apply H. vm_compute. reflexivity.
Defined.

Lemma unknown_platform_cannot_stop_what_it_observes_witness :
  (exists e : error,
     Stop freebsd simulate (freshISt browserSeen (observed work))
     = (Some e,
        mkISt (mkSys browserSeen [EvLock; EvRead FIsRunning; EvRead FCmd; EvUnlock])
              (observed work))
     /\ kindOf e = StopError)
  /\ inUseCommand freebsd (UserDataDir work)
     = Some ("pgrep", ["-f"; "chrome.*--user-data-dir=/profiles/work"]).
Proof.
  destruct (@unknown_platform_cannot_stop_what_it_observes freebsd World simulate
              browserSeen work None eq_refl eq_refl) as [H1 H2].
  split; [exact H1|]. apply H2. discriminate.
Defined.

Lemma Start_spawns_at_most_once_witness :
  exists (name : string) (args : list string),
    osCalls (log (sys (snd (Start linux simulate
                              (freshISt quiet (stopped defaultInstance))))))
    = [EvOS (CmdStart name args)]
    /\ args = commonArgs.
Proof.
  destruct (@Start_spawns_at_most_once linux World simulate quiet
              (stopped defaultInstance))
    as [[_ H] | (name & args & front & _ & Hcalls & Hargs & _ & Hfront)].
  - exfalso. apply H. vm_compute. reflexivity.
  - exists name, args. split; [exact Hcalls|].
    rewrite Hargs, (Hfront eq_refl). reflexivity.
Defined.

Lemma started_process_is_the_one_stopped_and_awaited_witness :
  let started := self (snd (Start linux simulate (freshISt quiet (stopped work)))) in
  ownedProcess (cmd started) = Some {| Pid := 100 |}
  /\ hd_error (osCalls (log (sys (snd (Stop linux simulate
                                         (freshISt quiet started))))))
     = Some (EvOS (ProcessSignal {| Pid := 100 |} SIGTERM)).
Proof.
  destruct (@started_process_is_the_one_stopped_and_awaited linux World simulate
              quiet (snd (simulate (CmdStart "google-chrome" []) quiet)) quiet
              (stopped work) "google-chrome"
              ["--user-data-dir=/profiles/work"; "--no-first-run";
               "--no-default-browser-check"]
              {| Pid := 100 |} eq_refl eq_refl eq_refl)
    as (H1 & H2 & _).
  split; [exact H1 | exact H2].
Defined.

Lemma stopped_instance_starts_again_witness :
  fst (Stop linux simulate (freshISt browserSeen (launched work 4242))) = None
  /\ osCalls (log (sys (snd (Start linux simulate
                (freshISt quiet
                   (self (snd (Stop linux simulate
                                 (freshISt browserSeen (launched work 4242))))))))))
     = [EvOS (CmdStart "google-chrome"
                ["--user-data-dir=/profiles/work"; "--no-first-run";
                 "--no-default-browser-check"])].
Proof.
  split; [vm_compute; reflexivity|].
  assert (E : Stop linux simulate (mkISt (freshSys browserSeen) (launched work 4242))
              = (None, snd (Stop linux simulate
                              (freshISt browserSeen (launched work 4242)))))
    by (vm_compute; reflexivity).
  exact (proj1 (@stopped_instance_starts_again linux World simulate _ _ _ quiet
                  "google-chrome"
                  ["--user-data-dir=/profiles/work"; "--no-first-run";
                   "--no-default-browser-check"]
                  E eq_refl)).
Defined.


Lemma reachable_handle_is_owned_witness :
  let built := fst (NewInstance linux simulate work (freshSys quiet)) in
  let started := self (snd (Start linux simulate (mkISt (freshSys quiet) built))) in
  cmd started <> None /\ handleOwned linux work started.
Proof.
  cbv zeta. split; [vm_compute; discriminate|].
  apply (@reachable_handle_is_owned linux World simulate).
  apply reach_Start. apply reach_new.
Defined.

Lemma onAddSubmit_shows_the_new_entry_witness :
  exists instances : list Instance,
    fst (onAddSubmit linux simulate "work" "/profiles/work" (freshSys quiet))
    = Ok ([defaultInstance; work], instances)
    /\ map config instances = [defaultInstance; work]
    /\ Forall (fun ci => cmd ci = None) instances.
Proof.
  apply (@onAddSubmit_shows_the_new_entry linux World simulate (freshSys quiet)
           "work" "/profiles/work").
  - vm_compute. reflexivity.
  - exists (match sampleMarshalIndent [toJSON work] with
            | Ok data => data
            | Err _ => ""
            end).
    split; vm_compute; reflexivity.
Defined.

Lemma chromeStop_nothing_found_witness :
  chromeStop linux simulate (UserDataDir work) (freshSys quiet)
  = ((false, None),
     mkSys quiet
       [EvOS (CmdOutput "pgrep" ["-f"; "chrome.*--user-data-dir=/profiles/work"])]).
Proof.
  apply (@chromeStop_nothing_found linux World simulate (UserDataDir work)
           "pgrep" ["-f"; "chrome.*--user-data-dir=/profiles/work"]
           quiet quiet "" (Some (ExitError 1)));
    [reflexivity | reflexivity | right; split; reflexivity].
Defined.

Lemma onRemoveConfirmed_drops_the_entry_witness :
  let s := snd (AddConfig linux simulate "play" "profiles/play"
                  [defaultInstance; work] (freshSys quiet)) in
  exists instances : list Instance,
    fst (onRemoveConfirmed linux simulate "work" s)
    = Ok ([defaultInstance; play], instances)
    /\ map config instances = [defaultInstance; play]
    /\ Forall (fun ci => cmd ci = None /\ Name (config ci) <> "work") instances.
Proof.
  cbv zeta.
  apply (@onRemoveConfirmed_drops_the_entry linux World simulate
           (snd (AddConfig linux simulate "play" "profiles/play"
                   [defaultInstance; work] (freshSys quiet)))
           "work").
  - vm_compute. reflexivity.
  - exists (match sampleMarshalIndent [toJSON play] with
            | Ok data => data
            | Err _ => ""
            end).
    split; vm_compute; reflexivity.
Defined.

End FurtherRuns.
